(** * now-desktop: the tray session and presentation logic of
      [src/electron/index.js]

    The file embeds the main process of the application: the ['ready']
    handler that resolves the session and then creates the tray icon, the
    loop that rewrites the fetched deployments into menu entries, the
    handlers of the logged-in menu, the file-drop handler and the handlers
    of the onboarding mode.  Calls to Electron, to the API client and to the
    other modules of the application are recorded in a log of effects; what
    they answer is an input of the handler that asks. *)

From Stdlib Require Import ZArith Lia Bool.
From stdpp Require Import base strings list sets.

(** ** JavaScript values read by the code *)

Module JS.

(** The values of the properties the code reads: a string, or [undefined]
    when the object has no such property. *)
Inductive Val :=
| undefined
| str (s : string).

(** [ToString], as applied by ['...' + v]. *)
Definition toString (v : Val) : string :=
  match v with
  | undefined => "undefined"
  | str s => s
  end.

(** [ToBoolean] on these values: the empty string and [undefined] are
    falsy. *)
Definition truthy (v : Val) : bool :=
  match v with
  | undefined => false
  | str s => negb (String.eqb s "")
  end.

(** [ToBoolean] on a number that is an integer: only 0 is falsy. *)
Definition truthyZ (n : Z) : bool := negb (n =? 0)%Z.

End JS.

(** ** Data model *)

(** A deployment as the API client returns it.  [created] is the raw
    property, which the code hands to [parseInt(_, 10)]. *)
Record Deployment := {
  uid : string;
  name : string;
  url : string;
  created : string
}.

(** The closures stored under [click] in the entries of a deployment.  A
    closure is represented by what it captured: [url] for the first two,
    [info.name] and [info.uid] for the third ([info] is never written to, so
    what the closure reads when it runs is what the object held when the
    entry was built). *)
Inductive Handler :=
| OpenInBrowser (url : string)
| CopyUrl (url : string)
| DeleteClick (info_name info_uid : JS.Val).

(** The object literals of a [submenu] array. *)
Inductive MenuItem :=
| Action (label : string) (click : Handler)
| Separator
| StaticLabel (label : string).

(** The objects that the [deployments] array holds: deployments when it
    comes back from the API client, [{label, submenu}] literals once the
    loop has passed. *)
Inductive Obj :=
| Dep (d : Deployment)
| Submenu (label : JS.Val) (submenu : list MenuItem).

(** Object identity, which [Array.prototype.indexOf] compares. *)
Definition ident := nat.

(** An array slot: a reference to an object. *)
Definition Cell : Type := ident * Obj.

Definition get_uid (o : Obj) : JS.Val :=
  match o with Dep d => JS.str (uid d) | Submenu _ _ => JS.undefined end.
Definition get_name (o : Obj) : JS.Val :=
  match o with Dep d => JS.str (name d) | Submenu _ _ => JS.undefined end.
Definition get_url (o : Obj) : JS.Val :=
  match o with Dep d => JS.str (url d) | Submenu _ _ => JS.undefined end.
Definition get_created (o : Obj) : JS.Val :=
  match o with Dep d => JS.str (created d) | Submenu _ _ => JS.undefined end.

(** [arr.indexOf(x)]: the first index whose slot refers to the object [x],
    or -1. *)
Fixpoint indexOf_from (arr : list Cell) (x : ident) (i : Z) : Z :=
  match arr with
  | [] => (-1)%Z
  | c :: rest => if decide (c.1 = x) then i else indexOf_from rest x (i + 1)%Z
  end.

Definition indexOf (arr : list Cell) (x : Cell) : Z := indexOf_from arr x.1 0%Z.

(** [arr[index] = v].  A negative [index] names an ordinary property and
    leaves the elements alone; an index past the end would extend the array,
    with holes that are not modelled: [indexOf] never returns one
    ([indexOf_from_range]). *)
Definition store (arr : list Cell) (index : Z) (v : Cell) : list Cell :=
  if decide (0 ≤ index)%Z then
    if decide (Z.to_nat index = length arr) then arr ++ [v]
    else <[Z.to_nat index := v]> arr
  else arr.

(** The array together with the allocator of object identities. *)
Record Heap := {
  array : list Cell;
  next : ident
}.

Section Builder.

(** Modelled from the spec: date formatting is an external collaborator
    (the [moment] package is not part of the repository).
    [moment_format c p] stands for
    [moment(new Date(parseInt(c, 10))).format(p)]. *)
Variable moment_format : JS.Val → string → string.

(** The [submenu] array of lines 122-187, for the object [info]. *)
Definition submenu_of (info : Obj) : list MenuItem :=
  let created := get_created info in
  let url := "https://" +:+ JS.toString (get_url info) in
  [ Action "Open in Browser..." (OpenInBrowser url);
    Action "Copy URL to Clipboard" (CopyUrl url);
    Separator;
    Action "Delete..." (DeleteClick (get_name info) (get_uid info));
    Separator;
    StaticLabel ("Created on " +:+ moment_format created "MMMM Do YYYY"
                 +:+ ", " +:+ moment_format created "h:mm a") ].

(** The body of the loop, lines 114-188. *)
Definition loop_body (deployment : Cell) (h : Heap) : Heap :=
  let info := deployment in
  let index := indexOf (array h) deployment in
  {| array := store (array h) index
                (next h, Submenu (get_name info.2) (submenu_of info.2));
     next := S (next h) |}.

(** [for (const deployment of deployments)]: the array iterator reads
    [deployments[i]] afresh at every turn and stops at the first index past
    the end.  [None] means that the fuel ran out before the iterator did. *)
Fixpoint for_of (fuel : nat) (i : nat) (h : Heap) : option Heap :=
  match fuel with
  | O => None
  | S fuel' =>
      match array h !! i with
      | None => Some h
      | Some deployment => for_of fuel' (S i) (loop_body deployment h)
      end
  end.

(** Lines 113-189. *)
Definition build (h : Heap) : option Heap :=
  for_of (S (length (array h))) 0 h.

End Builder.

(** ** The application *)

(** Calls that leave the module, in the order the code makes them. *)
Inductive Effect :=
| AutoUpdater
| ConfigHas (key : string)
| ConfigGet (key : string)
| Api (token : JS.Val)
| GetDeployments
| DeleteDeployment (uid : JS.Val)
| ConsoleError
| ShowError (message : string)
| NewTray (image : string)
| TrayOn (event : string)
| SetContextMenu (template : list Cell)
| SetHighlightMode (mode : string)
| PopUpContextMenu (menu : option string)
| MenuItems (deployments : list Cell)
| NewBrowserWindow
| LoadURL (page : string)
| WindowOn (event : string)
| AppOn (event : string)
| WindowFocus
| WindowHide
| WindowShow
| PreventDefault
| OpenExternal (url : string)
| ClipboardWriteText (text : string)
| Notify (title text : string)
| ShowMessageBox (title detail : string)
| Share (file : JS.Val)
| AppQuit.

(** The value under the key [now.user] of the configuration store. *)
Record User := {
  token : JS.Val;
  email : JS.Val
}.

(** What the surroundings of one run are: the platform, the configuration
    store, and the exception that [new Tray] throws, if it throws. *)
Record Env := {
  platform : string;
  config : option User;
  tray_error : option string
}.

(** Where the ['ready'] handler, an async function, stands: not yet called,
    suspended at the [await] of line 61 (reached through line 91), suspended
    at the [await] of line 191, or returned. *)
Inductive Phase :=
| NotReady
| AwaitGetDeployments
| AwaitMenuItems
| Finished.

(** The values that the local [deployments] of the handler takes. *)
Inductive DeploymentsVal :=
| DUndefined
| DFalse
| DArray (arr : list Cell).

Definition truthyD (v : DeploymentsVal) : bool :=
  match v with
  | DArray _ => true
  | _ => false
  end.

(** The native icon: its highlight mode ([None] until the code sets one),
    the template of its context menu, and the events that have a listener. *)
Record TrayIcon := {
  highlightMode : option string;
  contextMenu : option (list Cell);
  listeners : list string
}.

(** The variables of the module ([tray], [loggedIn]), of the ['ready']
    handler ([deployments]) and of its [else] branch ([isHighlighted],
    [submenuShown], and [tutorial] with its [forceClose] property and its
    listeners), the allocator, and the log. *)
Record App := {
  loggedIn : bool;
  tray : option TrayIcon;
  phase : Phase;
  deployments : DeploymentsVal;
  heap_next : ident;
  isHighlighted : bool;
  submenuShown : bool;
  forceClose : bool;
  windowListeners : list string;
  appListeners : list string;
  log : list Effect
}.

(** The module once it is loaded: line 70 has registered the
    ['window-all-closed'] listener. *)
Definition initial : App :=
  {| loggedIn := false; tray := None; phase := NotReady;
     deployments := DUndefined; heap_next := 0;
     isHighlighted := false; submenuShown := false; forceClose := false;
     windowListeners := []; appListeners := ["window-all-closed"];
     log := [] |}.

Definition emit (e : Effect) (a : App) : App :=
  {| loggedIn := loggedIn a; tray := tray a; phase := phase a;
     deployments := deployments a; heap_next := heap_next a;
     isHighlighted := isHighlighted a; submenuShown := submenuShown a;
     forceClose := forceClose a; windowListeners := windowListeners a;
     appListeners := appListeners a; log := log a ++ [e] |}.

Definition set_loggedIn (b : bool) (a : App) : App :=
  {| loggedIn := b; tray := tray a; phase := phase a;
     deployments := deployments a; heap_next := heap_next a;
     isHighlighted := isHighlighted a; submenuShown := submenuShown a;
     forceClose := forceClose a; windowListeners := windowListeners a;
     appListeners := appListeners a; log := log a |}.

Definition set_tray (t : option TrayIcon) (a : App) : App :=
  {| loggedIn := loggedIn a; tray := t; phase := phase a;
     deployments := deployments a; heap_next := heap_next a;
     isHighlighted := isHighlighted a; submenuShown := submenuShown a;
     forceClose := forceClose a; windowListeners := windowListeners a;
     appListeners := appListeners a; log := log a |}.

Definition set_phase (p : Phase) (a : App) : App :=
  {| loggedIn := loggedIn a; tray := tray a; phase := p;
     deployments := deployments a; heap_next := heap_next a;
     isHighlighted := isHighlighted a; submenuShown := submenuShown a;
     forceClose := forceClose a; windowListeners := windowListeners a;
     appListeners := appListeners a; log := log a |}.

Definition set_deployments (v : DeploymentsVal) (n : ident) (a : App) : App :=
  {| loggedIn := loggedIn a; tray := tray a; phase := phase a;
     deployments := v; heap_next := n;
     isHighlighted := isHighlighted a; submenuShown := submenuShown a;
     forceClose := forceClose a; windowListeners := windowListeners a;
     appListeners := appListeners a; log := log a |}.

Definition set_isHighlighted (b : bool) (a : App) : App :=
  {| loggedIn := loggedIn a; tray := tray a; phase := phase a;
     deployments := deployments a; heap_next := heap_next a;
     isHighlighted := b; submenuShown := submenuShown a;
     forceClose := forceClose a; windowListeners := windowListeners a;
     appListeners := appListeners a; log := log a |}.

Definition set_submenuShown (b : bool) (a : App) : App :=
  {| loggedIn := loggedIn a; tray := tray a; phase := phase a;
     deployments := deployments a; heap_next := heap_next a;
     isHighlighted := isHighlighted a; submenuShown := b;
     forceClose := forceClose a; windowListeners := windowListeners a;
     appListeners := appListeners a; log := log a |}.

Definition set_forceClose (b : bool) (a : App) : App :=
  {| loggedIn := loggedIn a; tray := tray a; phase := phase a;
     deployments := deployments a; heap_next := heap_next a;
     isHighlighted := isHighlighted a; submenuShown := submenuShown a;
     forceClose := b; windowListeners := windowListeners a;
     appListeners := appListeners a; log := log a |}.

(** [tutorial.on(event, _)]. *)
Definition window_on (event : string) (a : App) : App :=
  emit (WindowOn event)
    {| loggedIn := loggedIn a; tray := tray a; phase := phase a;
       deployments := deployments a; heap_next := heap_next a;
       isHighlighted := isHighlighted a; submenuShown := submenuShown a;
       forceClose := forceClose a;
       windowListeners := windowListeners a ++ [event];
       appListeners := appListeners a; log := log a |}.

(** [app.on(event, _)]. *)
Definition app_on (event : string) (a : App) : App :=
  emit (AppOn event)
    {| loggedIn := loggedIn a; tray := tray a; phase := phase a;
       deployments := deployments a; heap_next := heap_next a;
       isHighlighted := isHighlighted a; submenuShown := submenuShown a;
       forceClose := forceClose a; windowListeners := windowListeners a;
       appListeners := appListeners a ++ [event]; log := log a |}.

(** Methods of the icon; on [null] nothing is there to change. *)
Definition on_tray (f : TrayIcon → TrayIcon) (a : App) : App :=
  set_tray (f <$> tray a) a.

(** [tray.on(event, _)]. *)
Definition tray_on (event : string) (a : App) : App :=
  emit (TrayOn event)
    (on_tray (λ t, {| highlightMode := highlightMode t;
                      contextMenu := contextMenu t;
                      listeners := listeners t ++ [event] |}) a).

(** [tray.setHighlightMode(mode)]. *)
Definition tray_setHighlightMode (mode : string) (a : App) : App :=
  emit (SetHighlightMode mode)
    (on_tray (λ t, {| highlightMode := Some mode;
                      contextMenu := contextMenu t;
                      listeners := listeners t |}) a).

(** [tray.setContextMenu(Menu.buildFromTemplate(template))]. *)
Definition tray_setContextMenu (template : list Cell) (a : App) : App :=
  emit (SetContextMenu template)
    (on_tray (λ t, {| highlightMode := highlightMode t;
                      contextMenu := Some template;
                      listeners := listeners t |}) a).

Definition has_listener (event : string) (a : App) : bool :=
  match tray a with
  | Some t => bool_decide (event ∈ listeners t)
  | None => false
  end.

(** What happens outside and reaches the module.  An event carries the
    answers that its handler gets from the collaborators it asks:
    [isVisible] and [isFocused] of the onboarding window, whether [share]
    fulfils, the index that [dialog.showMessageBox] returns, whether
    [deleteDeployment] fulfils. *)
Inductive Event :=
| Ready
| GetDeploymentsSettled (r : option (list Deployment))
| MenuItemsSettled (fulfilled : bool)
| WindowAllClosed
| TrayClick (isVisible isFocused : bool)
| TrayRightClick (isVisible : bool)
| TrayDropFiles (files : list string) (shared : bool)
| WindowEvent (name : string)
| BeforeQuit
| MenuClick (i j : nat) (keepIt : Z) (deleted : bool).

(** The objects of a list that the API client returns are distinct and
    new. *)
Fixpoint alloc (n : ident) (l : list Deployment) : list Cell :=
  match l with
  | [] => []
  | d :: rest => (n, Dep d) :: alloc (S n) rest
  end.

Section Handlers.

Variable moment_format : JS.Val → string → string.
Variable env : Env.

(** Lines 47-54.  [files[0]] of an empty array is [undefined]; when [share]
    rejects, the [await] throws and the last line is not reached. *)
Definition fileDropped (files : list string) (shared : bool) (a : App) : App :=
  if decide (1 < length files) then
    emit (ShowError
      "It's not yet possible to share multiple files/directories at once.") a
  else
    let a := emit (Share (from_option JS.str JS.undefined (files !! 0))) a in
    if shared then emit PreventDefault a else a.

(** Lines 56-61, up to the [await].  The caller passes [user.token], a
    string, for the parameter named [user]; [user.token] inside is then a
    property that a string does not have, so the client is made with
    [undefined]. *)
Definition loadDeployments_call (user : JS.Val) (a : App) : App :=
  emit GetDeployments (emit (Api JS.undefined) a).

(** Lines 61-67, from the [await] on: the list, or [false] after
    [console.error]. *)
Definition loadDeployments_settle (r : option (list Deployment)) (a : App)
  : DeploymentsVal * ident * App :=
  match r with
  | Some l => (DArray (alloc (heap_next a) l), heap_next a + length l, a)
  | None => (DFalse, heap_next a, emit ConsoleError a)
  end.

(** Lines 94-96. *)
Definition check_deployments (a : App) : App :=
  if truthyD (deployments a) then set_loggedIn true a else a.

(** Lines 31-45. *)
Definition onboarding (a : App) : App :=
  emit (LoadURL "../app/pages/welcome.html") (emit NewBrowserWindow a).

(** Lines 199-202. *)
Definition toggleHighlight (a : App) : App :=
  let a :=
    tray_setHighlightMode (if isHighlighted a then "never" else "always") a in
  set_isHighlighted (negb (isHighlighted a)) a.

(** Lines 111-191, up to the [await].  A [for...of] over a value that is
    not iterable throws, which ends the handler; the fuel of [build] does
    not run out ([build_total]). *)
Definition wire_loggedIn (a : App) : App :=
  let a := tray_on "drop-files" a in
  match deployments a with
  | DArray arr =>
      match build moment_format {| array := arr; next := heap_next a |} with
      | Some h =>
          let a := set_deployments (DArray (array h)) (next h) a in
          set_phase AwaitMenuItems (emit (MenuItems (array h)) a)
      | None => set_phase Finished a
      end
  | _ => set_phase Finished a
  end.

(** Lines 196-278: what the [else] branch sets up. *)
Definition wire_onboarding (a : App) : App :=
  let a := tray_setHighlightMode "never" a in
  let a := set_isHighlighted false a in
  let a := onboarding a in
  let a := window_on "close" a in
  let a := foldl (λ a event, window_on event a) a
             ["closed"; "minimize"; "restore"] in
  let a := app_on "before-quit" a in
  let a := tray_on "click" a in
  let a := set_submenuShown false a in
  tray_on "right-click" a.

(** Lines 104-279, up to the [await] of line 191. *)
Definition ready_present (a : App) : App :=
  let a := emit (NewTray "/icons/iconTemplate.png") a in
  match tray_error env with
  | Some err => set_phase Finished (emit (ShowError err) a)
  | None =>
      let a := set_tray (Some {| highlightMode := None; contextMenu := None;
                                 listeners := [] |}) a in
      if loggedIn a then wire_loggedIn a
      else set_phase Finished (wire_onboarding a)
  end.

(** Lines 77-92: the handler from its start to the first [await], or to
    line 97 when nothing is awaited. *)
Definition ready_resolve (a : App) : App :=
  let a :=
    if negb (String.eqb (platform env) "linux") then emit AutoUpdater a
    else a in
  let a := emit (ConfigHas "now.user") a in
  match config env with
  | Some user =>
      let a := emit (ConfigGet "now.user") a in
      if JS.truthy (token user) then
        set_phase AwaitGetDeployments (loadDeployments_call (token user) a)
      else check_deployments a
  | None => a
  end.

(** The ['ready'] handler, started: it runs to the [await] of line 91 when
    it makes the fetch, and otherwise straight on to line 99 and beyond. *)
Definition ready (a : App) : App :=
  let a := ready_resolve a in
  match phase a with
  | AwaitGetDeployments => a
  | _ => ready_present a
  end.

(** Lines 91-97, from the [await] on. *)
Definition ready_resolved (r : option (list Deployment)) (a : App) : App :=
  let '(v, n, a) := loadDeployments_settle r a in
  check_deployments (set_deployments v n a).

(** The ['ready'] handler, resumed at line 91. *)
Definition ready_after_fetch (r : option (list Deployment)) (a : App) : App :=
  ready_present (ready_resolved r a).

(** Lines 191-194, from the [await] on.  [menuItems] is the export of
    [./menu]; the template that it generates around the entries is
    represented by the array it was given. *)
Definition ready_after_menuItems (fulfilled : bool) (a : App) : App :=
  set_phase Finished
    (if fulfilled then
       match deployments a with
       | DArray arr => tray_setContextMenu arr a
       | _ => a
       end
     else a).

(** Lines 70-74. *)
Definition window_all_closed (a : App) : App :=
  if negb (String.eqb (platform env) "darwin") then emit AppQuit a else a.

(** Lines 213-222. *)
Definition window_close (a : App) : App :=
  if forceClose a then a
  else emit PreventDefault (emit WindowHide (toggleHighlight a)).

(** Lines 234-254. *)
Definition tray_click (isVisible isFocused : bool) (a : App) : App :=
  if isVisible && negb isFocused then emit WindowFocus a
  else
    let a :=
      if isHighlighted a then emit WindowHide a
      else set_isHighlighted false (emit WindowShow a) in
    let a := toggleHighlight a in
    emit PreventDefault a.

(** Lines 259-278.  Line 22 has set the name of the application to
    ['Now']. *)
Definition tray_right_click (isVisible : bool) (a : App) : App :=
  let menu :=
    if String.eqb (platform env) "darwin" then "Quit Now" else "Quit" in
  let a := if negb isVisible then toggleHighlight a else a in
  let a :=
    emit (PopUpContextMenu (if submenuShown a then None else Some menu)) a in
  let a := set_submenuShown (negb (submenuShown a)) a in
  emit PreventDefault a.

(** The [click] closures of lines 125, 129-137 and 144-178.  [keepIt] is
    what [dialog.showMessageBox] returns, the index of the button chosen
    among ['Yes'] and ['Cancel']. *)
Definition click (h : Handler) (keepIt : Z) (deleted : bool) (a : App) : App :=
  match h with
  | OpenInBrowser url => emit (OpenExternal url) a
  | CopyUrl url =>
      let a := emit (ClipboardWriteText url) a in
      emit (Notify "Copied to clipboard"
              "Your clipboard now contains the URL of your deployment.") a
  | DeleteClick info_name info_uid =>
      let a := emit (ShowMessageBox ("Removal of " +:+ JS.toString info_name)
                       (JS.toString info_name)) a in
      if JS.truthyZ keepIt then a
      else
        let a := emit (Api JS.undefined) a in
        let a := emit (DeleteDeployment info_uid) a in
        if deleted then
          emit (Notify ("Deleted " +:+ JS.toString info_name)
                  "The deployment has successfully been deleted.") a
        else
          let a := emit ConsoleError a in
          emit (ShowError ("Wasn't not able to remove deployment "
                           +:+ JS.toString info_name)) a
  end.

(** The closure under item [j] of the submenu of entry [i] of the menu that
    the icon shows. *)
Definition menu_handler (a : App) (i j : nat) : option Handler :=
  t ← tray a;
  template ← contextMenu t;
  c ← template !! i;
  match c.2 with
  | Submenu _ items =>
      match items !! j with
      | Some (Action _ h) => Some h
      | _ => None
      end
  | Dep _ => None
  end.

(** One turn of the event loop: the listener registered for the event
    runs; an event without a listener changes nothing.  Electron emits
    ['ready'] once, and a promise settles once. *)
Definition dispatch (ev : Event) (a : App) : App :=
  match ev with
  | Ready =>
      match phase a with NotReady => ready a | _ => a end
  | GetDeploymentsSettled r =>
      match phase a with
      | AwaitGetDeployments => ready_after_fetch r a
      | _ => a
      end
  | MenuItemsSettled fulfilled =>
      match phase a with
      | AwaitMenuItems => ready_after_menuItems fulfilled a
      | _ => a
      end
  | WindowAllClosed => window_all_closed a
  | TrayClick isVisible isFocused =>
      if has_listener "click" a then tray_click isVisible isFocused a else a
  | TrayRightClick isVisible =>
      if has_listener "right-click" a then tray_right_click isVisible a else a
  | TrayDropFiles files shared =>
      if has_listener "drop-files" a then fileDropped files shared a else a
  | WindowEvent event =>
      if bool_decide (event ∈ windowListeners a) then
        if String.eqb event "close" then window_close a else toggleHighlight a
      else a
  | BeforeQuit =>
      if bool_decide ("before-quit" ∈ appListeners a) then set_forceClose true a
      else a
  | MenuClick i j keepIt deleted =>
      match menu_handler a i j with
      | Some h => click h keepIt deleted a
      | None => a
      end
  end.

Definition run (evs : list Event) (a : App) : App :=
  foldl (λ a ev, dispatch ev a) a evs.

End Handlers.

(** The tray mode of the specification, read off the state: unresolved
    until the handler is past line 97, then decided by [loggedIn]. *)
Inductive TrayMode :=
| Unresolved
| Onboarding
| LoggedIn.

Definition mode (a : App) : TrayMode :=
  match phase a with
  | NotReady | AwaitGetDeployments => Unresolved
  | AwaitMenuItems | Finished => if loggedIn a then LoggedIn else Onboarding
  end.

(** The entries that the loop is expected to leave for the cells [todo],
    the first of them allocated at [n]. *)
Fixpoint entries (moment_format : JS.Val → string → string)
    (n : ident) (todo : list Cell) : list Cell :=
  match todo with
  | [] => []
  | c :: rest =>
      (n, Submenu (get_name c.2) (submenu_of moment_format c.2))
        :: entries moment_format (S n) rest
  end.

(** The six children of section 4.3 of the specification, for a
    deployment. *)
Definition children (moment_format : JS.Val → string → string)
    (d : Deployment) : list MenuItem :=
  [ Action "Open in Browser..." (OpenInBrowser ("https://" +:+ url d));
    Action "Copy URL to Clipboard" (CopyUrl ("https://" +:+ url d));
    Separator;
    Action "Delete..." (DeleteClick (JS.str (name d)) (JS.str (uid d)));
    Separator;
    StaticLabel ("Created on "
                 +:+ moment_format (JS.str (created d)) "MMMM Do YYYY"
                 +:+ ", " +:+ moment_format (JS.str (created d)) "h:mm a") ].

(** How often an effect that satisfies [p] occurs in a log. *)
Definition count (p : Effect → bool) (l : list Effect) : nat :=
  length (filter (λ e, p e = true) l).

Definition is_DeleteDeployment (e : Effect) : bool :=
  match e with DeleteDeployment _ => true | _ => false end.
Definition is_Api (e : Effect) : bool :=
  match e with Api _ => true | _ => false end.
Definition is_Share (e : Effect) : bool :=
  match e with Share _ => true | _ => false end.
Definition is_ShowError (e : Effect) : bool :=
  match e with ShowError _ => true | _ => false end.
Definition is_PreventDefault (e : Effect) : bool :=
  match e with PreventDefault => true | _ => false end.
Definition is_NewTray (e : Effect) : bool :=
  match e with NewTray _ => true | _ => false end.
Definition is_SetContextMenu (e : Effect) : bool :=
  match e with SetContextMenu _ => true | _ => false end.

(** The calls that resolve the session: the reads of the configuration
    store and the fetch of the deployments. *)
Definition is_resolution (e : Effect) : bool :=
  match e with
  | ConfigHas _ | ConfigGet _ | GetDeployments => true
  | _ => false
  end.

(** ** Properties of states, logs and runs *)

(** Effects that neither resolve the session nor create or wire the
    icon. *)
Definition quiet (e : Effect) : bool :=
  match e with
  | ConfigHas _ | ConfigGet _ | GetDeployments | NewTray _ | TrayOn _
  | SetContextMenu _ | MenuItems _ => false
  | _ => true
  end.

(** [frame a a']: from [a] to [a'] the session, the catalog, the menu and
    the listeners are the same, and the log has grown by quiet effects. *)
Record frame (a a' : App) : Prop := {
  frame_phase : phase a' = phase a;
  frame_loggedIn : loggedIn a' = loggedIn a;
  frame_deployments : deployments a' = deployments a;
  frame_heap_next : heap_next a' = heap_next a;
  frame_contextMenu : contextMenu <$> tray a' = contextMenu <$> tray a;
  frame_listeners : listeners <$> tray a' = listeners <$> tray a;
  frame_windowListeners : windowListeners a' = windowListeners a;
  frame_appListeners : appListeners a' = appListeners a;
  frame_log : ∃ ext, log a' = log a ++ ext ∧ Forall (λ e, quiet e = true) ext
}.

Ltac frame_log :=
  eexists; split;
  [ simpl; rewrite <- ?app_assoc; first [reflexivity | symmetry; apply app_nil_r]
  | simpl; repeat constructor ].

Ltac frame_fields :=
  constructor; simpl;
  try reflexivity;
  try (match goal with |- context [tray ?a] => destruct (tray a) end;
       reflexivity);
  try frame_log.

(** The events of the user and of the window system, as opposed to the
    three that drive the ['ready'] handler. *)
Definition interactive (ev : Event) : bool :=
  match ev with
  | Ready | GetDeploymentsSettled _ | MenuItemsSettled _ => false
  | _ => true
  end.

(** What may follow the creation of the icon in the log: anything but a
    second creation or a call that resolves the session. *)
Definition after_tray (e : Effect) : bool :=
  negb (is_NewTray e) && negb (is_resolution e).

(** The invariant of the event loop, by the place where the ['ready']
    handler stands. *)
Definition session_inv (env : Env) (a : App) : Prop :=
  match phase a with
  | NotReady =>
      tray a = None ∧ loggedIn a = false
      ∧ Forall (λ e, is_NewTray e = false) (log a)
  | AwaitGetDeployments =>
      tray a = None ∧ loggedIn a = false
      ∧ Forall (λ e, is_NewTray e = false) (log a)
      ∧ ConfigHas "now.user" ∈ log a ∧ GetDeployments ∈ log a
  | AwaitMenuItems | Finished =>
      ∃ pre img post,
        log a = pre ++ NewTray img :: post
        ∧ Forall (λ e, is_NewTray e = false) pre
        ∧ Forall (λ e, after_tray e = true) post
        ∧ ConfigHas "now.user" ∈ pre
        ∧ (∀ u, config env = Some u → JS.truthy (token u) = true →
             GetDeployments ∈ pre)
  end.

(** The effects that a handler has added to the log of [a] when it leaves
    [a']. *)
Definition effects_since (a a' : App) : list Effect :=
  drop (length (log a)) (log a').

(** The claim of C6 about the input: a build leaves the array that holds
    the catalog as it found it. *)
Definition build_leaves_catalog : Prop :=
  ∀ moment_format h h',
    build moment_format h = Some h' → array h' = array h.

(** The events that need the icon: the clicks on it, the drops on it, and
    the clicks in its menu. *)
Definition on_icon (ev : Event) : bool :=
  match ev with
  | TrayClick _ _ | TrayRightClick _ | TrayDropFiles _ _ | MenuClick _ _ _ _ =>
      true
  | _ => false
  end.

(** What only the logged-in branch does. *)
Definition logged_in_effect (e : Effect) : bool :=
  match e with
  | SetContextMenu _ | MenuItems _ | TrayOn "drop-files" => true
  | _ => false
  end.

(** The state while the session is unresolved: nothing is built yet. *)
Record blank (a : App) : Prop := {
  blank_tray : tray a = None;
  blank_loggedIn : loggedIn a = false;
  blank_deployments : deployments a = DUndefined;
  blank_heap_next : heap_next a = 0;
  blank_windowListeners : windowListeners a = [];
  blank_appListeners : appListeners a = ["window-all-closed"];
  blank_log : Forall (λ e, logged_in_effect e = false) (log a)
}.

(** The onboarding mode: the session is resolved as logged out, nothing of
    the logged-in menu exists, and, unless the icon could not be created,
    the handlers of the onboarding flow are in place. *)
Record onboarding_wired (env : Env) (a : App) : Prop := {
  onb_mode : mode a = Onboarding;
  onb_phase : phase a = Finished;
  onb_contextMenu : ∀ t, tray a = Some t → contextMenu t = None;
  onb_log : Forall (λ e, logged_in_effect e = false) (log a);
  onb_handlers :
    tray_error env = None →
    listeners <$> tray a = Some ["click"; "right-click"]
    ∧ windowListeners a = ["close"; "closed"; "minimize"; "restore"]
    ∧ appListeners a = ["window-all-closed"; "before-quit"]
}.

(** ** The scenarios of the specification, as concrete runs *)

(** A stand-in for the date formatter: it answers with the pattern. *)
Definition pattern_only : JS.Val → string → string := λ _ pattern, pattern.

(** The deployment of scenario B. *)
Definition proj : Deployment :=
  {| uid := "1"; name := "proj"; url := "proj.example.com"; created := "1000" |}.

(** Scenario A: an empty configuration. *)
Definition scenario_A : Env :=
  {| platform := "darwin"; config := None; tray_error := None |}.

(** Scenario B: a configuration with a token. *)
Definition scenario_B : Env :=
  {| platform := "darwin";
     config := Some {| token := JS.str "token"; email := JS.str "me@example.com" |};
     tray_error := None |}.

(** Scenario B with its menu on the icon. *)
Definition scenario_B_menu : App :=
  run pattern_only scenario_B
    [Ready; GetDeploymentsSettled (Some [proj]); MenuItemsSettled true] initial.

(** ** Further properties of states, logs and runs *)

(** The calls of lines 104-191 and 196-278: the creation of the icon and
    the wiring of one of the two modes. *)
Definition presenting (e : Effect) : bool :=
  match e with
  | NewTray "/icons/iconTemplate.png" | ShowError _ | TrayOn _
  | SetHighlightMode "never" | NewBrowserWindow | LoadURL _ | WindowOn _
  | AppOn _ | MenuItems _ => true
  | _ => false
  end.

(** The calls that the handler of an event may make, one row per
    listener of the file. *)
Definition may_emit (ev : Event) (e : Effect) : bool :=
  match ev with
  | Ready =>
      match e with
      | AutoUpdater | ConfigHas "now.user" | ConfigGet "now.user"
      | Api JS.undefined | GetDeployments => true
      | _ => presenting e
      end
  | GetDeploymentsSettled _ =>
      match e with
      | ConsoleError => true
      | _ => presenting e
      end
  | MenuItemsSettled _ =>
      match e with SetContextMenu _ => true | _ => false end
  | WindowAllClosed =>
      match e with AppQuit => true | _ => false end
  | TrayClick _ _ =>
      match e with
      | WindowFocus | WindowHide | WindowShow | SetHighlightMode _
      | PreventDefault => true
      | _ => false
      end
  | TrayRightClick _ =>
      match e with
      | SetHighlightMode _ | PopUpContextMenu _ | PreventDefault => true
      | _ => false
      end
  | TrayDropFiles _ _ =>
      match e with
      | ShowError _ | Share _ | PreventDefault => true
      | _ => false
      end
  | WindowEvent _ =>
      match e with
      | SetHighlightMode _ | WindowHide | PreventDefault => true
      | _ => false
      end
  | BeforeQuit => false
  | MenuClick _ _ _ _ =>
      match e with
      | OpenExternal _ | ClipboardWriteText _ | Notify _ _
      | ShowMessageBox _ _ | Api JS.undefined | DeleteDeployment _
      | ConsoleError | ShowError _ => true
      | _ => false
      end
  end.

(** What is wired, by the icon and by [loggedIn]: without an icon nothing
    is; with an icon, either the drop handler alone, or the click handlers
    and the listeners of the onboarding window, with the highlight mode of
    the icon following [isHighlighted]. *)
Definition wiring_inv (env : Env) (a : App) : Prop :=
  match tray a with
  | None =>
      windowListeners a = [] ∧ appListeners a = ["window-all-closed"]
      ∧ isHighlighted a = false ∧ submenuShown a = false
      ∧ forceClose a = false
      ∧ phase a ≠ AwaitMenuItems
      ∧ (phase a = NotReady ∨ phase a = AwaitGetDeployments →
         loggedIn a = false)
      ∧ (phase a = NotReady → deployments a = DUndefined)
  | Some t =>
      tray_error env = None
      ∧ if loggedIn a then
          (phase a = AwaitMenuItems ∨ phase a = Finished)
          ∧ listeners t = ["drop-files"] ∧ highlightMode t = None
          ∧ windowListeners a = [] ∧ appListeners a = ["window-all-closed"]
          ∧ isHighlighted a = false ∧ submenuShown a = false
          ∧ forceClose a = false
          ∧ (phase a = AwaitMenuItems → contextMenu t = None)
        else
          phase a = Finished
          ∧ listeners t = ["click"; "right-click"] ∧ contextMenu t = None
          ∧ highlightMode t
            = Some (if isHighlighted a then "always" else "never")
          ∧ windowListeners a = ["close"; "closed"; "minimize"; "restore"]
          ∧ appListeners a = ["window-all-closed"; "before-quit"]
  end.

(** The calls that belong to the logged-in mode: sharing, the actions of
    the deployment menu, and the building and setting of that menu. *)
Definition logged_in_call (e : Effect) : bool :=
  match e with
  | Share _ | DeleteDeployment _ | OpenExternal _ | ClipboardWriteText _
  | ShowMessageBox _ _ | Notify _ _ | SetContextMenu _ | MenuItems _ => true
  | _ => false
  end.

(** How many fetches a run makes once ['ready'] has come: one if the
    configuration holds a truthy token. *)
Definition fetches (env : Env) : nat :=
  match config env with
  | Some u => if JS.truthy (token u) then 1 else 0
  | None => 0
  end.

(** How many times [autoUpdater] is started once ['ready'] has come. *)
Definition updates (env : Env) : nat :=
  if String.eqb (platform env) "linux" then 0 else 1.

Definition is_GetDeployments (e : Effect) : bool :=
  match e with GetDeployments => true | _ => false end.
Definition is_AutoUpdater (e : Effect) : bool :=
  match e with AutoUpdater => true | _ => false end.

(** The calls of the startup, counted by the place where the ['ready']
    handler stands. *)
Definition startup_inv (env : Env) (a : App) : Prop :=
  count is_NewTray (log a)
  = match mode a with Unresolved => 0 | _ => 1 end
  ∧ count is_GetDeployments (log a)
    = match phase a with NotReady => 0 | _ => fetches env end
  ∧ count is_AutoUpdater (log a)
    = match phase a with NotReady => 0 | _ => updates env end
  ∧ (phase a = AwaitGetDeployments → fetches env = 1).


(** A click in the menu that the dialog, if asked, answers with index 0. *)
Definition confirmed_click (ev : Event) : bool :=
  match ev with MenuClick _ _ keepIt _ => (keepIt =? 0)%Z | _ => false end.

(** A drop of at most one file. *)
Definition single_drop (ev : Event) : bool :=
  match ev with
  | TrayDropFiles files _ => bool_decide (length files ≤ 1)
  | _ => false
  end.

(** How many events of a run satisfy [p]. *)
Definition events (p : Event → bool) (evs : list Event) : nat :=
  length (filter (λ ev, p ev = true) evs).

(** The events that [events] counts for the onboarding mode. *)
Definition is_right_click (ev : Event) : bool :=
  match ev with TrayRightClick _ => true | _ => false end.

Definition is_before_quit (ev : Event) : bool :=
  match ev with BeforeQuit => true | _ => false end.

(** Scenario A on a machine where the icon cannot be created. *)
Definition scenario_no_icon : Env :=
  {| platform := "linux"; config := None;
     tray_error := Some "Failed to load image" |}.


(** Scenario A after ['ready']: the onboarding mode. *)
Definition scenario_A_wired : App := run pattern_only scenario_A [Ready] initial.

(** ** The loop over the deployments *)

Section BuilderFacts.

Variable moment_format : JS.Val → string → string.

Lemma indexOf_from_range arr x i :
  indexOf_from arr x i = (-1)%Z
  ∨ (i ≤ indexOf_from arr x i < i + Z.of_nat (length arr))%Z.
Proof.
  revert i. induction arr as [|c rest IH]; intros i; simpl; [by left|].
  case_decide; [right; lia|].
  destruct (IH (i + 1)%Z) as [->|?]; [by left|right; lia].
Qed.

Lemma indexOf_from_middle done c rest i :
  Forall (λ p : Cell, p.1 ≠ c.1) done →
  indexOf_from (done ++ c :: rest) c.1 i = (i + Z.of_nat (length done))%Z.
Proof.
  revert i. induction done as [|p done IH]; intros i Hne; simpl.
  - rewrite decide_True by done. lia.
  - inversion Hne as [|?? Hp Hd]; subst.
    rewrite decide_False by done. rewrite IH by done. lia.
Qed.

Lemma store_length arr x v :
  length (store arr (indexOf arr x) v) = length arr.
Proof.
  unfold store, indexOf.
  destruct (indexOf_from_range arr x.1 0) as [->|Hr]; [done|].
  rewrite decide_True by lia. rewrite decide_False by lia.
  apply length_insert.
Qed.

Lemma loop_body_length c h :
  length (array (loop_body moment_format c h)) = length (array h).
Proof. apply store_length. Qed.

(** With fuel beyond the cells that are left, the loop ends because its
    iterator does. *)
Lemma for_of_total fuel i h :
  length (array h) - i < fuel → is_Some (for_of moment_format fuel i h).
Proof.
  revert i h. induction fuel as [|fuel IH]; intros i h Hlt; [lia|].
  simpl. destruct (array h !! i) as [c|] eqn:Hi; [|by eexists].
  apply lookup_lt_Some in Hi. apply IH. rewrite loop_body_length. lia.
Qed.

Lemma build_total h : is_Some (build moment_format h).
Proof. apply for_of_total. lia. Qed.

(** The invariant of the loop: the cells passed hold new objects, which
    [indexOf] cannot mistake for one of the cells to come. *)
Lemma for_of_entries todo : ∀ done n fuel,
  Forall (λ c : Cell, Forall (λ t : Cell, c.1 ≠ t.1) todo) done →
  Forall (λ t : Cell, t.1 < n) todo →
  length todo < fuel →
  for_of moment_format fuel (length done)
    {| array := done ++ todo; next := n |}
  = Some {| array := done ++ entries moment_format n todo;
            next := n + length todo |}.
Proof.
  induction todo as [|c rest IH]; intros done n fuel Hdone Hlt Hfuel;
    (destruct fuel as [|fuel]; [simpl in Hfuel; lia|]); simpl.
  - rewrite lookup_ge_None_2 by (rewrite length_app; simpl; lia).
    by rewrite Nat.add_0_r.
  - rewrite list_lookup_middle by done.
    unfold loop_body, indexOf, store; simpl.
    rewrite indexOf_from_middle; cycle 1.
    { eapply Forall_impl; [exact Hdone|].
      intros p Hp. by inversion Hp. }
    rewrite decide_True by lia.
    rewrite decide_False by (rewrite length_app; simpl; lia).
    replace (Z.to_nat (0 + Z.of_nat (length done))) with (length done + 0)
      by lia.
    rewrite insert_app_r. simpl.
    inversion Hlt as [|?? Hc Hrest]; subst.
    specialize (IH (done ++ [(n, Submenu (get_name c.2)
                                   (submenu_of moment_format c.2))])
                  (S n) fuel).
    rewrite length_app, Nat.add_1_r, <- !app_assoc in IH. simpl in IH.
    rewrite Nat.add_succ_r. apply IH; [| |simpl in Hfuel; lia].
    + apply Forall_app; split.
      * eapply Forall_impl; [exact Hdone|].
        intros p Hp. by inversion Hp.
      * constructor; [|constructor]. simpl.
        eapply Forall_impl; [exact Hrest|]. simpl. intros; lia.
    + eapply Forall_impl; [exact Hrest|]. simpl. intros; lia.
Qed.

(** What [build] leaves, for any array of objects that exist already. *)
Lemma build_entries arr n :
  Forall (λ t : Cell, t.1 < n) arr →
  build moment_format {| array := arr; next := n |}
  = Some {| array := entries moment_format n arr; next := n + length arr |}.
Proof.
  intros Hlt. unfold build; simpl.
  by apply (for_of_entries arr [] n (S (length arr))); [constructor| |lia].
Qed.

Lemma entries_length n todo : length (entries moment_format n todo) = length todo.
Proof. revert n. induction todo; intros; simpl; [done|]. by rewrite IHtodo. Qed.

Lemma entries_objects n todo :
  (entries moment_format n todo).*2
  = (λ c : Cell, Submenu (get_name c.2) (submenu_of moment_format c.2)) <$> todo.
Proof. revert n. induction todo; intros; simpl; [done|]. by rewrite IHtodo. Qed.

Lemma entries_lookup n todo i c :
  todo !! i = Some c →
  entries moment_format n todo !! i
  = Some (n + i, Submenu (get_name c.2) (submenu_of moment_format c.2)).
Proof.
  revert n i. induction todo as [|t rest IH]; intros n i Hi; [done|].
  destruct i as [|i]; simpl in *.
  - inversion Hi; subst. by rewrite Nat.add_0_r.
  - rewrite Nat.add_succ_r. exact (IH (S n) i Hi).
Qed.

Lemma alloc_lt n l : Forall (λ t : Cell, t.1 < n + length l) (alloc n l).
Proof.
  revert n. induction l as [|d rest IH]; intros n; simpl; constructor.
  - simpl. lia.
  - specialize (IH (S n)). eapply Forall_impl; [exact IH|].
    simpl. intros; lia.
Qed.

Lemma alloc_objects n l : (alloc n l).*2 = Dep <$> l.
Proof. revert n. induction l; intros; simpl; [done|]. by rewrite IHl. Qed.

Lemma alloc_length n l : length (alloc n l) = length l.
Proof. revert n. induction l; intros; simpl; [done|]. by rewrite IHl. Qed.

End BuilderFacts.

(** ** Handlers that leave the session alone *)

Lemma frame_refl a : frame a a.
Proof. frame_fields. Qed.

Lemma frame_trans a b c : frame a b → frame b c → frame a c.
Proof.
  intros [] []. constructor; try congruence.
  destruct frame_log0 as (e1 & H1 & F1), frame_log1 as (e2 & H2 & F2).
  exists (e1 ++ e2). split; [by rewrite H2, H1, app_assoc|by apply Forall_app].
Qed.

Lemma toggleHighlight_frame a : frame a (toggleHighlight a).
Proof. unfold toggleHighlight. destruct (isHighlighted a); frame_fields. Qed.

Lemma tray_click_frame isVisible isFocused a :
  frame a (tray_click isVisible isFocused a).
Proof.
  unfold tray_click, toggleHighlight.
  destruct isVisible, isFocused, (isHighlighted a) eqn:E; simpl;
    rewrite ?E; frame_fields.
Qed.

Lemma tray_right_click_frame env isVisible a :
  frame a (tray_right_click env isVisible a).
Proof.
  unfold tray_right_click, toggleHighlight.
  destruct isVisible, (isHighlighted a), (submenuShown a) eqn:E; simpl;
    rewrite ?E; frame_fields.
Qed.

Lemma fileDropped_frame files shared a : frame a (fileDropped files shared a).
Proof.
  unfold fileDropped. case_decide; [frame_fields|].
  destruct shared; frame_fields.
Qed.

Lemma window_close_frame a : frame a (window_close a).
Proof.
  unfold window_close, toggleHighlight.
  destruct (forceClose a), (isHighlighted a); frame_fields.
Qed.

Lemma window_all_closed_frame env a : frame a (window_all_closed env a).
Proof. unfold window_all_closed. destruct (negb _); frame_fields. Qed.

Lemma click_frame h keepIt deleted a : frame a (click h keepIt deleted a).
Proof.
  unfold click. destruct h; [frame_fields..|].
  destruct (JS.truthyZ keepIt), deleted; frame_fields.
Qed.

Lemma dispatch_frame moment_format env ev a :
  interactive ev = true → frame a (dispatch moment_format env ev a).
Proof.
  destruct ev; intros ?; try discriminate; simpl.
  - apply window_all_closed_frame.
  - destruct (has_listener _ a); [apply tray_click_frame|apply frame_refl].
  - destruct (has_listener _ a); [apply tray_right_click_frame|apply frame_refl].
  - destruct (has_listener _ a); [apply fileDropped_frame|apply frame_refl].
  - case_bool_decide; [|apply frame_refl].
    destruct (String.eqb _ _);
      [apply window_close_frame|apply toggleHighlight_frame].
  - case_bool_decide; [frame_fields|apply frame_refl].
  - destruct (menu_handler a i j); [apply click_frame|apply frame_refl].
Qed.

Lemma dispatch_finished moment_format env ev a :
  phase a = Finished → frame a (dispatch moment_format env ev a).
Proof.
  intros Hp. destruct (interactive ev) eqn:Hi; [by apply dispatch_frame|].
  destruct ev; try discriminate; simpl; rewrite Hp; apply frame_refl.
Qed.

Lemma run_snoc moment_format env evs ev a :
  run moment_format env (evs ++ [ev]) a
  = dispatch moment_format env ev (run moment_format env evs a).
Proof. unfold run. by rewrite foldl_snoc. Qed.

Lemma run_app moment_format env evs1 evs2 a :
  run moment_format env (evs1 ++ evs2) a
  = run moment_format env evs2 (run moment_format env evs1 a).
Proof. unfold run. by rewrite foldl_app. Qed.

Lemma run_interactive moment_format env evs a :
  Forall (λ ev, interactive ev = true) evs →
  frame a (run moment_format env evs a).
Proof.
  induction evs as [|ev evs IH] using rev_ind; intros Hall; [apply frame_refl|].
  apply Forall_app in Hall as [Hevs Hev]. inversion Hev; subst.
  rewrite run_snoc. eapply frame_trans; [by apply IH|by apply dispatch_frame].
Qed.

Lemma run_finished moment_format env evs a :
  phase a = Finished → frame a (run moment_format env evs a).
Proof.
  induction evs as [|ev evs IH] using rev_ind; intros Hp; [apply frame_refl|].
  rewrite run_snoc. eapply frame_trans; [by apply IH|].
  apply dispatch_finished. by rewrite (frame_phase _ _ (IH Hp)).
Qed.

(** ** The order of resolution and icon *)

Lemma quiet_after_tray e : quiet e = true → after_tray e = true.
Proof. by destruct e. Qed.

Lemma quiet_not_NewTray e : quiet e = true → is_NewTray e = false.
Proof. by destruct e. Qed.

Lemma ready_present_log moment_format env a :
  ∃ post,
    log (ready_present moment_format env a)
    = log a ++ NewTray "/icons/iconTemplate.png" :: post
    ∧ Forall (λ e, after_tray e = true) post
    ∧ (phase (ready_present moment_format env a) = AwaitMenuItems
       ∨ phase (ready_present moment_format env a) = Finished).
Proof.
  unfold ready_present, wire_loggedIn, wire_onboarding, onboarding.
  destruct (tray_error env); simpl.
  { eexists; split; [by rewrite <- app_assoc|].
    split; [repeat constructor|by right]. }
  destruct (loggedIn a); simpl.
  - destruct (deployments a); simpl;
      try (eexists; split; [by rewrite <- app_assoc|];
           split; [repeat constructor|by right]).
    destruct (build _ _); simpl;
      (eexists; split; [by rewrite <- ?app_assoc|]);
      (split; [repeat constructor|auto]).
  - eexists; split; [by rewrite <- ?app_assoc|].
    split; [repeat constructor|by right].
Qed.

Lemma session_inv_resolved env (a' : App) pre :
  log a' = pre →
  Forall (λ e, is_NewTray e = false) pre →
  ConfigHas "now.user" ∈ pre →
  (∀ u, config env = Some u → JS.truthy (token u) = true →
     GetDeployments ∈ pre) →
  ∀ moment_format, session_inv env (ready_present moment_format env a').
Proof.
  intros Hlog Hpre Hc Hg moment_format.
  destruct (ready_present_log moment_format env a') as (post & Hl & Hpost & Hp).
  unfold session_inv.
  assert (∃ pre img post,
    log (ready_present moment_format env a') = pre ++ NewTray img :: post
    ∧ Forall (λ e, is_NewTray e = false) pre
    ∧ Forall (λ e, after_tray e = true) post
    ∧ ConfigHas "now.user" ∈ pre
    ∧ (∀ u, config env = Some u → JS.truthy (token u) = true →
         GetDeployments ∈ pre)) as H.
  { exists pre, "/icons/iconTemplate.png", post. by rewrite Hl, Hlog. }
  by destruct Hp as [-> | ->].
Qed.

Lemma session_inv_frame env a a' :
  frame a a' → session_inv env a → session_inv env a'.
Proof.
  intros [Hp Hl _ _ Hm _ _ _ (ext & Hlog & Hq)]. unfold session_inv.
  rewrite Hp, Hl, Hlog.
  assert (tray a = None → tray a' = None) as Ht.
  { intros E. rewrite E in Hm. by destruct (tray a'). }
  assert (Forall (λ e, is_NewTray e = false) ext) as Hn.
  { eapply Forall_impl; [exact Hq|]. apply quiet_not_NewTray. }
  assert (Forall (λ e, after_tray e = true) ext) as Ha.
  { eapply Forall_impl; [exact Hq|]. apply quiet_after_tray. }
  destruct (phase a).
  - intros (? & ? & ?). repeat split; auto. by apply Forall_app.
  - intros (? & ? & ? & ? & ?). repeat split; auto.
    + by apply Forall_app.
    + apply elem_of_app; auto.
    + apply elem_of_app; auto.
  - intros (pre & img & post & -> & ? & ? & ? & ?).
    exists pre, img, (post ++ ext). rewrite <- app_assoc. simpl.
    repeat split; auto. by apply Forall_app.
  - intros (pre & img & post & -> & ? & ? & ? & ?).
    exists pre, img, (post ++ ext). rewrite <- app_assoc. simpl.
    repeat split; auto. by apply Forall_app.
Qed.

Lemma session_inv_dispatch moment_format env ev a :
  session_inv env a → session_inv env (dispatch moment_format env ev a).
Proof.
  intros Hinv.
  destruct (interactive ev) eqn:Hi.
  { eapply session_inv_frame; [by apply dispatch_frame|done]. }
  destruct ev; try discriminate; simpl.
  - (* 'ready' *)
    destruct (phase a) eqn:Hp; try done.
    unfold session_inv in Hinv. rewrite Hp in Hinv.
    destruct Hinv as (Ht & Hl & Hn).
    unfold ready, ready_resolve, loadDeployments_call, check_deployments.
    destruct (negb (platform env =? "linux")%string);
      (destruct (config env) as [u|] eqn:Hc; simpl;
       [destruct (JS.truthy (token u)) eqn:Htok; simpl;
        [|destruct (truthyD (deployments a)); simpl]|]);
      rewrite ?Hp; simpl.
    all: try (eapply session_inv_resolved; [reflexivity| | |]; simpl;
              [rewrite ?Forall_app; repeat split; auto; repeat constructor
              |set_solver
              |intros u' Hu' Htok'; rewrite Hc in Hu'; congruence]).
    all: unfold session_inv; simpl; rewrite ?Forall_app;
      repeat split; auto; repeat constructor; set_solver.
  - (* the fetch has settled *)
    destruct (phase a) eqn:Hp; try done.
    unfold session_inv in Hinv. rewrite Hp in Hinv.
    destruct Hinv as (Ht & Hl & Hn & Hc & Hg).
    unfold ready_after_fetch, ready_resolved, loadDeployments_settle,
      check_deployments.
    destruct r as [l|]; simpl.
    all: eapply session_inv_resolved; [reflexivity| | |]; simpl;
      rewrite ?Forall_app; repeat split; auto; repeat constructor;
      try set_solver.
  - (* menuItems has settled *)
    destruct (phase a) eqn:Hp; try done.
    unfold session_inv in Hinv. rewrite Hp in Hinv.
    destruct Hinv as (pre & img & post & Hlog & ? & ? & ? & ?).
    unfold ready_after_menuItems, session_inv; simpl.
    destruct fulfilled; [destruct (deployments a)|]; simpl.
    all: try (by exists pre, img, post).
    exists pre, img, (post ++ [SetContextMenu arr]).
    rewrite Hlog, <- app_assoc. simpl. repeat split; auto.
    apply Forall_app; split; [done|repeat constructor].
Qed.

Lemma session_inv_initial env : session_inv env initial.
Proof. unfold session_inv; simpl. repeat split; constructor. Qed.

Lemma session_inv_run moment_format env evs a :
  session_inv env a → session_inv env (run moment_format env evs a).
Proof.
  induction evs as [|ev evs IH] using rev_ind; intros Hinv; [done|].
  rewrite run_snoc. apply session_inv_dispatch. by apply IH.
Qed.

(** The creation of the icon splits a log in one way only. *)
Lemma NewTray_split pre1 img1 post1 pre2 img2 post2 :
  pre1 ++ NewTray img1 :: post1 = pre2 ++ NewTray img2 :: post2 →
  Forall (λ e, is_NewTray e = false) pre1 →
  Forall (λ e, after_tray e = true) post1 →
  pre1 = pre2 ∧ post1 = post2.
Proof.
  revert pre2. induction pre1 as [|e pre1 IH]; intros pre2 Heq Hpre Hpost.
  - destruct pre2 as [|e2 pre2]; simpl in Heq.
    + by inversion Heq.
    + inversion Heq; subst.
      assert (NewTray img2 ∈ pre2 ++ NewTray img2 :: post2) as Hin
        by set_solver.
      rewrite Forall_forall in Hpost. by specialize (Hpost _ Hin).
  - inversion Hpre as [|?? He Hpre']; subst.
    destruct pre2 as [|e2 pre2]; simpl in Heq; inversion Heq; subst.
    + done.
    + destruct (IH pre2) as [-> ->]; auto.
Qed.

(** ** Counting effects *)

Lemma count_app p l1 l2 : count p (l1 ++ l2) = count p l1 + count p l2.
Proof. unfold count. by rewrite filter_app, length_app. Qed.

Lemma count_none p l : Forall (λ e, p e = false) l → count p l = 0.
Proof.
  unfold count. induction 1 as [|e l He _ IH]; [done|].
  rewrite filter_cons_False; [done|]. by rewrite He.
Qed.

Lemma effects_since_app a a' ext :
  log a' = log a ++ ext → effects_since a a' = ext.
Proof. intros H. unfold effects_since. rewrite H. apply drop_app_length. Qed.

(** ** The claims about the menu of deployments *)

(** C4. For every catalog, of any size, whose objects exist when the loop
    starts, the loop ends and leaves as many entries as the catalog has
    deployments, in the order of the catalog; each entry is labelled with
    the name of its deployment and holds the six children of the
    specification: Open in Browser, Copy URL, separator, Delete, separator,
    and the label of the creation date.  A click on the first child opens
    "https://" followed by the url of the deployment. *)
Theorem build_submenus moment_format (catalog : list (ident * Deployment)) n :
  Forall (λ c, c.1 < n) catalog →
  ∃ h,
    build moment_format {| array := prod_map id Dep <$> catalog; next := n |}
    = Some h
    ∧ length (array h) = length catalog
    ∧ (array h).*2
      = (λ c, Submenu (JS.str (name c.2)) (children moment_format c.2))
          <$> catalog
    ∧ (∀ d, length (children moment_format d) = 6)
    ∧ (∀ d keepIt deleted a,
         ∃ label h1,
           children moment_format d !! 0 = Some (Action label h1)
           ∧ label = "Open in Browser..."
           ∧ effects_since a (click h1 keepIt deleted a)
             = [OpenExternal ("https://" +:+ url d)]).
Proof.
  intros Hlt. eexists. split; [apply build_entries|]; simpl.
  { rewrite Forall_fmap. eapply Forall_impl; [exact Hlt|]. by intros []. }
  rewrite entries_length, length_fmap, entries_objects, <- list_fmap_compose.
  repeat split.
  intros d keepIt deleted a. do 2 eexists. repeat split.
  by apply effects_since_app.
Qed.

(** C6, as stated, fails: the loop writes each entry over the deployment it
    was made from, so the array that held the catalog holds the menu
    afterwards; a second pass over the same array finds no deployment and
    labels its entries [undefined]. *)
Lemma build_overwrites_catalog :
  ¬ build_leaves_catalog
  ∧ let proj := {| uid := "1"; name := "proj"; url := "proj.example.com";
                   created := "1000" |} in
    let h0 := {| array := [(0, Dep proj)]; next := 1 |} in
    ∃ h1 h2,
      build (λ _ pattern, pattern) h0 = Some h1
      ∧ array h1 ≠ array h0
      ∧ build (λ _ pattern, pattern) h1 = Some h2
      ∧ (array h2).*2 ≠ (array h1).*2.
Proof.
  split.
  - intros H.
    specialize (H (λ _ pattern, pattern)
                  {| array := [(0, Dep (Build_Deployment "1" "proj"
                                          "proj.example.com" "1000"))];
                     next := 1 |} _ eq_refl).
    discriminate H.
  - simpl. do 2 eexists.
    split; [reflexivity|]. split; [discriminate|].
    split; [reflexivity|discriminate].
Qed.

(** C6, amended. The entries that the loop leaves are a function of the
    deployments alone: two arrays that hold deployments with the same
    fields, whatever the identities of the objects and the state of the
    allocator, end up with structurally identical entries.  The loop works
    in place: afterwards every slot of the array holds an entry, not a
    deployment. *)
Theorem build_deterministic_in_place moment_format
    (catalog1 catalog2 : list (ident * Deployment)) n1 n2 :
  Forall (λ c, c.1 < n1) catalog1 →
  Forall (λ c, c.1 < n2) catalog2 →
  catalog1.*2 = catalog2.*2 →
  ∃ h1 h2,
    build moment_format {| array := prod_map id Dep <$> catalog1; next := n1 |}
    = Some h1
    ∧ build moment_format
        {| array := prod_map id Dep <$> catalog2; next := n2 |}
      = Some h2
    ∧ (array h1).*2 = (array h2).*2
    ∧ length (array h1) = length catalog1
    ∧ (∀ i c, array h1 !! i = Some c → ∃ label items, c.2 = Submenu label items).
Proof.
  intros H1 H2 Heq. do 2 eexists.
  split; [apply build_entries|split; [apply build_entries|]]; simpl.
  1,2: rewrite Forall_fmap; eapply Forall_impl; [eassumption|]; by intros [].
  rewrite !entries_objects, entries_length, length_fmap.
  repeat split.
  - rewrite <- !list_fmap_compose.
    change ((λ c : Cell, Submenu (get_name c.2) (submenu_of moment_format c.2))
              ∘ prod_map id Dep)
      with ((λ d, Submenu (JS.str (name d)) (children moment_format d))
              ∘ (snd : ident * Deployment → Deployment)).
    rewrite !list_fmap_compose. by rewrite Heq.
  - intros i c Hi.
    assert (c.2 ∈ (entries moment_format n1 (prod_map id Dep <$> catalog1)).*2)
      as Hin.
    { apply list_elem_of_fmap. exists c. split; [done|].
      by eapply list_elem_of_lookup_2. }
    rewrite entries_objects in Hin.
    apply list_elem_of_fmap in Hin as (t & -> & _). eauto.
Qed.

(** C5. A click on a Delete item of the menu that the icon shows, answered
    with index 0 ("Yes") by the confirmation dialog, calls
    [deleteDeployment] exactly once, for the deployment of the item;
    answered with any other index it makes no call to the API at all, the
    dialog being all that happened.  In both cases the catalog and the menu
    of the icon are what they were. *)
Theorem delete_confirmation moment_format env a i j info_name info_uid
    keepIt deleted :
  menu_handler a i j = Some (DeleteClick info_name info_uid) →
  let a' := dispatch moment_format env (MenuClick i j keepIt deleted) a in
  let done := effects_since a a' in
  count is_DeleteDeployment done = (if (keepIt =? 0)%Z then 1 else 0)
  ∧ (if (keepIt =? 0)%Z then
       done !! 2 = Some (DeleteDeployment info_uid)
     else
       done = [ShowMessageBox ("Removal of " +:+ JS.toString info_name)
                 (JS.toString info_name)])
  ∧ deployments a' = deployments a
  ∧ tray a' = tray a.
Proof.
  intros Hh. simpl. rewrite Hh. unfold click, JS.truthyZ.
  destruct (keepIt =? 0)%Z; simpl.
  - destruct deleted; simpl;
      (erewrite effects_since_app; [|simpl; by rewrite <- ?app_assoc]);
      by repeat split.
  - erewrite effects_since_app; [|reflexivity]. by repeat split.
Qed.

(** ** The claims about the onboarding mode *)

(** C7. From any value of the highlight, [k] calls of [toggleHighlight] in
    a row leave the highlight at (k is odd) != initial, which on booleans is
    the exclusive or; two calls restore the highlight. *)
Theorem toggleHighlight_parity k a :
  isHighlighted (Nat.iter k toggleHighlight a)
  = xorb (Nat.odd k) (isHighlighted a)
  ∧ isHighlighted (toggleHighlight (toggleHighlight a)) = isHighlighted a.
Proof.
  split; [|simpl; apply negb_involutive].
  induction k as [|k IH]; [done|].
  rewrite Nat.odd_succ, <- Nat.negb_odd. simpl. rewrite IH.
  by destruct (Nat.odd k), (isHighlighted a).
Qed.

(** C8, at the input where the code departs from the claim. A primary
    click that finds the window visible and not focused only focuses it: the
    handler returns at line 238 and [event.preventDefault] is not called.
    On every other click it is called, once. *)
Theorem tray_click_preventDefault isVisible isFocused a :
  effects_since a (tray_click true false a) = [WindowFocus]
  ∧ count is_PreventDefault (effects_since a (tray_click isVisible isFocused a))
    = (if isVisible && negb isFocused then 0 else 1).
Proof.
  split; [by apply effects_since_app|].
  unfold tray_click, toggleHighlight.
  destruct isVisible, isFocused, (isHighlighted a) eqn:E; simpl;
    rewrite ?E; simpl;
    (erewrite effects_since_app; [|simpl; by rewrite <- ?app_assoc]); done.
Qed.

(** ** The claims about dropped files *)

(** C9. A drop of two files or more is answered with the error dialog
    about multiple files and nothing else: [share] is not called.  A drop of
    one file calls [share] once, with that file, and shows no error. *)
Theorem fileDropped_one_at_a_time :
  (∀ f g rest shared a,
     let done := effects_since a (fileDropped (f :: g :: rest) shared a) in
     done = [ShowError
       "It's not yet possible to share multiple files/directories at once."]
     ∧ count is_Share done = 0)
  ∧ (∀ f shared a,
       let done := effects_since a (fileDropped [f] shared a) in
       done !! 0 = Some (Share (JS.str f))
       ∧ count is_Share done = 1
       ∧ count is_ShowError done = 0).
Proof.
  split.
  - intros f g rest shared a. unfold fileDropped.
    rewrite decide_True by (simpl; lia).
    by erewrite effects_since_app.
  - intros f shared a. unfold fileDropped.
    rewrite decide_False by (simpl; lia).
    destruct shared; simpl;
      (erewrite effects_since_app; [|simpl; by rewrite <- ?app_assoc]); done.
Qed.

(** C10. A drop of no file passes the guard, which rejects only more than
    one: no error is shown, and [share] is called once, with the
    [undefined] that the first element of an empty array is. *)
Theorem fileDropped_empty shared a :
  let done := effects_since a (fileDropped [] shared a) in
  done !! 0 = Some (Share JS.undefined)
  ∧ count is_Share done = 1
  ∧ count is_ShowError done = 0.
Proof.
  unfold fileDropped. rewrite decide_False by (simpl; lia).
  destruct shared; simpl;
    (erewrite effects_since_app; [|simpl; by rewrite <- ?app_assoc]); done.
Qed.

(** ** Session resolution *)

Lemma quiet_not_logged_in e : quiet e = true → logged_in_effect e = false.
Proof. by destruct e. Qed.

Lemma blank_initial : blank initial.
Proof. by constructor. Qed.

Lemma blank_frame a a' : frame a a' → blank a → blank a'.
Proof.
  intros [? ? ? ? Hm ? ? ? (ext & Hlog & Hq)] [Ht ? ? ? ? ? ?].
  constructor; try congruence.
  - rewrite Ht in Hm. by destruct (tray a').
  - rewrite Hlog. apply Forall_app; split; [done|].
    eapply Forall_impl; [exact Hq|]. apply quiet_not_logged_in.
Qed.



(** The logged-out path from line 99 on. *)
Lemma ready_present_onboarding moment_format env a :
  loggedIn a = false → tray a = None → windowListeners a = [] →
  appListeners a = ["window-all-closed"] →
  Forall (λ e, logged_in_effect e = false) (log a) →
  onboarding_wired env (ready_present moment_format env a).
Proof.
  intros Hl Ht Hw Ha Hlog.
  unfold ready_present, wire_onboarding, onboarding.
  destruct (tray_error env) eqn:He; simpl; rewrite ?Hl; simpl.
  - constructor; unfold mode; simpl; rewrite ?Hl, ?Ht; try done.
    + rewrite !Forall_app. repeat split; auto; repeat constructor.
    + congruence.
  - constructor; unfold mode; simpl; rewrite ?Hl, ?Hw, ?Ha; try done.
    + by intros t [= <-].
    + rewrite !Forall_app. repeat split; auto; repeat constructor.
Qed.

(** The ['ready'] handler, started from a blank state: it stops at the
    fetch when the configuration holds a truthy token, and otherwise sets up
    the onboarding mode. *)
Lemma ready_from_blank moment_format env a :
  blank a → phase a = NotReady →
  match config env with
  | Some u =>
      if JS.truthy (token u) then
        blank (ready moment_format env a)
        ∧ phase (ready moment_format env a) = AwaitGetDeployments
      else onboarding_wired env (ready moment_format env a)
  | None => onboarding_wired env (ready moment_format env a)
  end.
Proof.
  intros [Ht Hl Hd Hn Hw Ha Hlog] Hp.
  unfold ready, ready_resolve, loadDeployments_call, check_deployments.
  destruct (negb (platform env =? "linux")%string);
    (destruct (config env) as [u|]; simpl;
     [destruct (JS.truthy (token u)); simpl|]);
    rewrite ?Hd; simpl; rewrite ?Hp; simpl.
  all: try (apply ready_present_onboarding; simpl; try done;
            rewrite ?Forall_app; repeat split; auto; repeat constructor).
  all: split; [|done]; constructor; simpl; try done;
    rewrite ?Forall_app; repeat split; auto; repeat constructor.
Qed.


Lemma ready_present_loggedIn moment_format env a :
  loggedIn (ready_present moment_format env a) = loggedIn a.
Proof.
  unfold ready_present, wire_loggedIn, wire_onboarding, onboarding.
  destruct (tray_error env); simpl; [done|].
  destruct (loggedIn a) eqn:E; simpl; [|done].
  destruct (deployments a); simpl; try done.
  by destruct (build _ _).
Qed.

(** Once resolved, the mode is settled for the lifetime of the process. *)
Lemma mode_dispatch moment_format env ev a :
  mode a ≠ Unresolved → mode (dispatch moment_format env ev a) = mode a.
Proof.
  intros Hm. destruct (interactive ev) eqn:Hi.
  { destruct (dispatch_frame moment_format env ev a Hi) as [Hp Hl].
    unfold mode. by rewrite Hp, Hl. }
  unfold mode in *.
  destruct ev; try discriminate; simpl; destruct (phase a) eqn:Hp;
    rewrite ?Hp; try done.
  unfold ready_after_menuItems; simpl.
  destruct fulfilled; [destruct (deployments a)|]; done.
Qed.

Lemma mode_run moment_format env evs a :
  mode a ≠ Unresolved → mode (run moment_format env evs a) = mode a.
Proof.
  induction evs as [|ev evs IH] using rev_ind; intros Hm; [done|].
  rewrite run_snoc, mode_dispatch; rewrite IH; done.
Qed.

Lemma run_cons moment_format env ev evs a :
  run moment_format env (ev :: evs) a
  = run moment_format env evs (dispatch moment_format env ev a).
Proof. done. Qed.

(** Before ['ready'] nothing is built, whatever the window system sends. *)
Lemma run_before_ready moment_format env before :
  Forall (λ ev, interactive ev = true) before →
  blank (run moment_format env before initial)
  ∧ phase (run moment_format env before initial) = NotReady.
Proof.
  intros Hb. pose proof (run_interactive moment_format env before initial Hb) as F.
  split; [by eapply blank_frame; [exact F|apply blank_initial]|].
  by rewrite (frame_phase _ _ F).
Qed.

(** With a truthy token the handler waits for the fetch, whatever the
    window system sends meanwhile. *)
Lemma run_to_fetch moment_format env u before pending :
  config env = Some u → JS.truthy (token u) = true →
  Forall (λ ev, interactive ev = true) before →
  Forall (λ ev, interactive ev = true) pending →
  blank (run moment_format env (before ++ Ready :: pending) initial)
  ∧ phase (run moment_format env (before ++ Ready :: pending) initial)
    = AwaitGetDeployments.
Proof.
  intros Hc Htok Hb Hpend.
  destruct (run_before_ready moment_format env before Hb) as [Hblank Hp].
  rewrite run_app, run_cons. simpl. rewrite Hp.
  pose proof (ready_from_blank moment_format env _ Hblank Hp) as Hr.
  rewrite Hc, Htok in Hr. destruct Hr as [Hblank' Hp'].
  pose proof (run_interactive moment_format env pending
                (ready moment_format env (run moment_format env before initial))
                Hpend) as F.
  split; [by eapply blank_frame; [exact F|]|].
  by rewrite (frame_phase _ _ F).
Qed.

(** The handler passes line 97 only after ['ready'] has come, and, when it
    made the fetch, after the fetch has settled. *)
Lemma run_history moment_format env evs :
  let a := run moment_format env evs initial in
  phase a = NotReady
  ∨ (Ready ∈ evs
     ∧ ∀ u, config env = Some u → JS.truthy (token u) = true →
         phase a = AwaitGetDeployments
         ∨ ∃ r, GetDeploymentsSettled r ∈ evs).
Proof.
  induction evs as [|ev evs IH] using rev_ind; [by left|].
  simpl in *. rewrite run_snoc.
  set (a := run moment_format env evs initial) in *.
  assert (interactive ev = true →
          phase (dispatch moment_format env ev a) = phase a) as Hframe.
  { intros Hi. apply dispatch_frame, Hi. }
  destruct IH as [Hp|[Hr Hq]].
  - destruct ev; try (left; rewrite Hframe; done); simpl; rewrite Hp;
      try (by left).
    right. split; [set_solver|]. intros u Hc Htok. left.
    unfold ready, ready_resolve. rewrite Hc, Htok. simpl. done.
  - right. split; [set_solver|]. intros u Hc Htok.
    destruct (Hq u Hc Htok) as [Hp|[r Hin]]; [|right; exists r; set_solver].
    destruct ev; try (left; rewrite Hframe; done); simpl; rewrite Hp;
      try (by left).
    right. exists r. set_solver.
Qed.

(** C1. In every run, made of any events in any order: while the mode is
    unresolved there is no icon, none has been asked for, and no event of the
    icon reaches a handler; and wherever the log shows the creation of the
    icon, the mode is resolved, ['ready'] has come and the configuration was
    read before, the fetch was made before and has settled if the
    configuration holds a truthy token, and no call that resolves the
    session comes after. *)
Theorem icon_after_resolution moment_format env evs :
  let a := run moment_format env evs initial in
  (mode a = Unresolved →
     tray a = None
     ∧ count is_NewTray (log a) = 0
     ∧ ∀ ev, on_icon ev = true → dispatch moment_format env ev a = a)
  ∧ (∀ pre img post,
       log a = pre ++ NewTray img :: post →
       mode a ≠ Unresolved
       ∧ ConfigHas "now.user" ∈ pre
       ∧ count is_NewTray pre = 0
       ∧ count is_resolution post = 0
       ∧ Ready ∈ evs
       ∧ (∀ u, config env = Some u → JS.truthy (token u) = true →
            GetDeployments ∈ pre ∧ ∃ r, GetDeploymentsSettled r ∈ evs)).
Proof.
  simpl.
  pose proof (session_inv_run moment_format env evs initial
                (session_inv_initial env)) as Hinv.
  pose proof (run_history moment_format env evs) as Hhist. simpl in Hhist.
  set (a := run moment_format env evs initial) in *.
  unfold session_inv in Hinv. unfold mode.
  assert (tray a = None →
          ∀ ev, on_icon ev = true → dispatch moment_format env ev a = a) as Hd.
  { intros Ht ev Hev. destruct ev; try discriminate; simpl;
      unfold has_listener, menu_handler; by rewrite Ht. }
  assert (∀ l pre img post,
            Forall (λ e, is_NewTray e = false) l →
            l = pre ++ NewTray img :: post → False) as Hno.
  { intros l pre img post Hl ->. apply Forall_app in Hl as [_ Hl].
    by inversion Hl. }
  destruct (phase a).
  - destruct Hinv as (Ht & _ & Hn). split.
    + intros _. repeat split; auto. by apply count_none.
    + intros pre img post Hlog. by destruct (Hno _ _ _ _ Hn Hlog).
  - destruct Hinv as (Ht & _ & Hn & _). split.
    + intros _. repeat split; auto. by apply count_none.
    + intros pre img post Hlog. by destruct (Hno _ _ _ _ Hn Hlog).
  - destruct Hinv as (pre0 & img0 & post0 & Hlog0 & Hpre & Hpost & Hc & Hg).
    split; [by destruct (loggedIn a)|].
    intros pre img post Hlog. rewrite Hlog0 in Hlog.
    destruct (NewTray_split _ _ _ _ _ _ Hlog Hpre Hpost) as [<- <-].
    destruct Hhist as [?|[Hr Hq]]; [done|].
    split; [by destruct (loggedIn a)|]. split; [done|].
    split; [by apply count_none|]. split.
    { apply count_none. eapply Forall_impl; [exact Hpost|].
      intros e. unfold after_tray.
      by destruct (is_NewTray e), (is_resolution e). }
    split; [done|]. intros u Hu Htok. split; [by eapply Hg|].
    by destruct (Hq u Hu Htok) as [?|?].
  - destruct Hinv as (pre0 & img0 & post0 & Hlog0 & Hpre & Hpost & Hc & Hg).
    split; [by destruct (loggedIn a)|].
    intros pre img post Hlog. rewrite Hlog0 in Hlog.
    destruct (NewTray_split _ _ _ _ _ _ Hlog Hpre Hpost) as [<- <-].
    destruct Hhist as [?|[Hr Hq]]; [done|].
    split; [by destruct (loggedIn a)|]. split; [done|].
    split; [by apply count_none|]. split.
    { apply count_none. eapply Forall_impl; [exact Hpost|].
      intros e. unfold after_tray.
      by destruct (is_NewTray e), (is_resolution e). }
    split; [done|]. intros u Hu Htok. split; [by eapply Hg|].
    by destruct (Hq u Hu Htok) as [?|?].
Qed.


(** C3. When the configuration holds a session with a truthy token and
    the fetch succeeds with a list of deployments, empty or not, the handler
    resumed at line 91 holds that list in [deployments] and sets [loggedIn]
    by line 97; the mode is then logged-in and stays so for all events that
    follow.  If the icon can be created, the handler goes on to turn the
    list into the entries of its deployments, in order, and waits for
    [menuItems]. *)
Theorem resolve_loggedIn moment_format env u l before pending rest :
  config env = Some u → JS.truthy (token u) = true →
  Forall (λ ev, interactive ev = true) before →
  Forall (λ ev, interactive ev = true) pending →
  let a1 := run moment_format env (before ++ Ready :: pending) initial in
  let a2 := ready_resolved (Some l) a1 in
  let a3 := dispatch moment_format env (GetDeploymentsSettled (Some l)) a1 in
  mode a1 = Unresolved
  ∧ a3 = ready_present moment_format env a2
  ∧ loggedIn a2 = true
  ∧ (∃ arr, deployments a2 = DArray arr ∧ arr.*2 = Dep <$> l)
  ∧ mode a3 = LoggedIn
  ∧ mode (run moment_format env rest a3) = LoggedIn
  ∧ (tray_error env = None →
     phase a3 = AwaitMenuItems
     ∧ ∃ arr, deployments a3 = DArray arr
         ∧ arr.*2 = (λ d, Submenu (JS.str (name d)) (children moment_format d))
                      <$> l).
Proof.
  intros Hc Htok Hb Hpend.
  destruct (run_to_fetch moment_format env u before pending Hc Htok Hb Hpend)
    as [[Ht Hl Hd Hn Hw Ha Hlog] Hp].
  set (a1 := run moment_format env (before ++ Ready :: pending) initial) in *.
  simpl. rewrite Hp. unfold ready_after_fetch.
  assert (mode (ready_present moment_format env (ready_resolved (Some l) a1))
          = LoggedIn) as Hmode.
  { pose proof (ready_present_loggedIn moment_format env
                  (ready_resolved (Some l) a1)) as Hli.
    destruct (ready_present_log moment_format env (ready_resolved (Some l) a1))
      as (_ & _ & _ & [Hph|Hph]); unfold mode; by rewrite Hph, Hli. }
  split; [unfold mode; by rewrite Hp|].
  split; [done|]. split; [done|].
  split; [eexists; split; [reflexivity|apply alloc_objects]|].
  split; [done|].
  split; [rewrite mode_run; [done|by rewrite Hmode]|].
  intros He. unfold ready_present, wire_loggedIn. rewrite He. simpl.
  rewrite build_entries by (rewrite Hn; apply (alloc_lt 0)). simpl.
  split; [done|]. eexists. split; [reflexivity|].
  rewrite entries_objects. clear. generalize (heap_next a1).
  induction l as [|d l IH]; intros n; simpl; [done|]. by rewrite IH.
Qed.

(** ** The theorems at the scenarios of the specification *)

Lemma icon_after_resolution_witness :
  mode (run pattern_only scenario_A [] initial) = Unresolved
  ∧ tray (run pattern_only scenario_A [] initial) = None
  ∧ log (run pattern_only scenario_A [Ready] initial)
    = [AutoUpdater; ConfigHas "now.user"]
        ++ NewTray "/icons/iconTemplate.png"
        :: [SetHighlightMode "never"; NewBrowserWindow;
            LoadURL "../app/pages/welcome.html"; WindowOn "close";
            WindowOn "closed"; WindowOn "minimize"; WindowOn "restore";
            AppOn "before-quit"; TrayOn "click"; TrayOn "right-click"]
  ∧ mode (run pattern_only scenario_A [Ready] initial) ≠ Unresolved.
Proof.
  split; [reflexivity|]. split.
  - exact (proj1 (proj1 (icon_after_resolution pattern_only scenario_A [])
                    eq_refl)).
  - split; [reflexivity|].
    exact (proj1 (proj2 (icon_after_resolution pattern_only scenario_A [Ready])
                    [AutoUpdater; ConfigHas "now.user"]
                    "/icons/iconTemplate.png"
                    [SetHighlightMode "never"; NewBrowserWindow;
                     LoadURL "../app/pages/welcome.html"; WindowOn "close";
                     WindowOn "closed"; WindowOn "minimize"; WindowOn "restore";
                     AppOn "before-quit"; TrayOn "click"; TrayOn "right-click"]
                    eq_refl)).
Defined.


Lemma resolve_loggedIn_witness :
  config scenario_B = Some {| token := JS.str "token";
                              email := JS.str "me@example.com" |}
  ∧ JS.truthy (JS.str "token") = true
  ∧ mode (dispatch pattern_only scenario_B (GetDeploymentsSettled (Some [proj]))
            (run pattern_only scenario_B [Ready] initial)) = LoggedIn
  ∧ mode (dispatch pattern_only scenario_B (GetDeploymentsSettled (Some []))
            (run pattern_only scenario_B [Ready] initial)) = LoggedIn.
Proof.
  assert (Forall (λ ev, interactive ev = true) []) as H0 by constructor.
  split; [reflexivity|]. split; [reflexivity|]. split.
  - exact (proj1 (proj2 (proj2 (proj2 (proj2
             (resolve_loggedIn pattern_only scenario_B _ [proj] [] [] []
                eq_refl eq_refl H0 H0)))))).
  - exact (proj1 (proj2 (proj2 (proj2 (proj2
             (resolve_loggedIn pattern_only scenario_B _ [] [] [] []
                eq_refl eq_refl H0 H0)))))).
Defined.

Lemma build_submenus_witness :
  Forall (λ c : ident * Deployment, c.1 < 1) [(0, proj)]
  ∧ ∃ h,
      build pattern_only {| array := [(0, Dep proj)]; next := 1 |} = Some h
      ∧ length (array h) = 1.
Proof.
  assert (Forall (λ c : ident * Deployment, c.1 < 1) [(0, proj)]) as H
    by (repeat constructor).
  split; [exact H|].
  destruct (build_submenus pattern_only [(0, proj)] 1 H) as (h & Hb & Hl & _).
  exists h. split; [exact Hb|exact Hl].
Defined.

Lemma build_deterministic_in_place_witness :
  Forall (λ c : ident * Deployment, c.1 < 1) [(0, proj)]
  ∧ Forall (λ c : ident * Deployment, c.1 < 9) [(5, proj)]
  ∧ [(0, proj)].*2 = [(5, proj)].*2
  ∧ ∃ h1 h2,
      build pattern_only {| array := [(0, Dep proj)]; next := 1 |} = Some h1
      ∧ build pattern_only {| array := [(5, Dep proj)]; next := 9 |} = Some h2
      ∧ (array h1).*2 = (array h2).*2.
Proof.
  assert (Forall (λ c : ident * Deployment, c.1 < 1) [(0, proj)]) as H1
    by (repeat constructor).
  assert (Forall (λ c : ident * Deployment, c.1 < 9) [(5, proj)]) as H2
    by (repeat constructor; simpl; lia).
  split; [exact H1|]. split; [exact H2|]. split; [reflexivity|].
  destruct (build_deterministic_in_place pattern_only [(0, proj)] [(5, proj)]
              1 9 H1 H2 eq_refl) as (h1 & h2 & Hb1 & Hb2 & Heq & _).
  exists h1, h2. split; [exact Hb1|]. split; [exact Hb2|exact Heq].
Defined.

Lemma delete_confirmation_witness :
  menu_handler scenario_B_menu 0 3
  = Some (DeleteClick (JS.str "proj") (JS.str "1"))
  ∧ count is_DeleteDeployment
      (effects_since scenario_B_menu
         (dispatch pattern_only scenario_B (MenuClick 0 3 0 true)
            scenario_B_menu)) = 1
  ∧ count is_DeleteDeployment
      (effects_since scenario_B_menu
         (dispatch pattern_only scenario_B (MenuClick 0 3 1 true)
            scenario_B_menu)) = 0.
Proof.
  split; [reflexivity|]. split.
  - exact (proj1 (delete_confirmation pattern_only scenario_B scenario_B_menu
                    0 3 _ _ 0 true eq_refl)).
  - exact (proj1 (delete_confirmation pattern_only scenario_B scenario_B_menu
                    0 3 _ _ 1 true eq_refl)).
Defined.

(** ** What each handler may call *)

Ltac args_done :=
  solve [ done
        | match goal with x : JS.Val |- _ => destruct x end; done
        | match goal with x : string |- _ => destruct x end; done ].

Ltac log_ext :=
  eexists; split;
  [ simpl; rewrite <- ?app_assoc; first [reflexivity | symmetry; apply app_nil_r]
  | simpl; repeat constructor ].

Lemma ready_present_emits moment_format env a :
  ∃ ext,
    log (ready_present moment_format env a) = log a ++ ext
    ∧ Forall (λ e, presenting e = true) ext.
Proof.
  unfold ready_present, wire_loggedIn, wire_onboarding, onboarding.
  destruct (tray_error env); simpl; [log_ext|].
  destruct (loggedIn a); simpl; [|log_ext].
  destruct (deployments a); simpl; try log_ext.
  destruct (build _ _); simpl; log_ext.
Qed.

Lemma presenting_Ready e : presenting e = true → may_emit Ready e = true.
Proof. destruct e; simpl; try done. Qed.

Lemma presenting_Settled r e :
  presenting e = true → may_emit (GetDeploymentsSettled r) e = true.
Proof. destruct e; simpl; try done. Qed.

(** Every handler only adds to the log, and only calls of its row. *)
Lemma dispatch_emits moment_format env ev a :
  ∃ ext,
    log (dispatch moment_format env ev a) = log a ++ ext
    ∧ Forall (λ e, may_emit ev e = true) ext.
Proof.
  destruct ev; simpl.
  - destruct (phase a) eqn:Hp; try log_ext.
    unfold ready.
    assert (∃ ext, log (ready_resolve env a) = log a ++ ext
                   ∧ Forall (λ e, may_emit Ready e = true) ext) as (e1 & H1 & F1).
    { unfold ready_resolve, loadDeployments_call, check_deployments.
      destruct (negb _), (config env) as [u|]; simpl;
        try destruct (JS.truthy (token u)); simpl;
        try destruct (truthyD (deployments a)); simpl; log_ext. }
    destruct (phase (ready_resolve env a)); try (by exists e1).
    all: destruct (ready_present_emits moment_format env (ready_resolve env a))
           as (e2 & H2 & F2);
      exists (e1 ++ e2); (split; [by rewrite H2, H1, app_assoc|]);
      apply Forall_app; split; [done|];
      eapply Forall_impl; [exact F2|apply presenting_Ready].
  - destruct (phase a) eqn:Hp; try log_ext.
    unfold ready_after_fetch.
    destruct (ready_present_emits moment_format env (ready_resolved r a))
      as (e2 & H2 & F2).
    assert (∃ ext, log (ready_resolved r a) = log a ++ ext
                   ∧ Forall (λ e, may_emit (GetDeploymentsSettled r) e = true)
                       ext) as (e1 & H1 & F1).
    { unfold ready_resolved, loadDeployments_settle, check_deployments.
      destruct r; simpl; log_ext. }
    exists (e1 ++ e2). split; [by rewrite H2, H1, app_assoc|].
    apply Forall_app; split; [done|].
    eapply Forall_impl; [exact F2|apply (presenting_Settled r)].
  - destruct (phase a); try log_ext.
    unfold ready_after_menuItems.
    destruct fulfilled; [destruct (deployments a)|]; simpl; log_ext.
  - unfold window_all_closed. destruct (negb _); log_ext.
  - destruct (has_listener _ a); [|log_ext].
    unfold tray_click, toggleHighlight.
    destruct isVisible, isFocused, (isHighlighted a) eqn:E; simpl;
      rewrite ?E; log_ext.
  - destruct (has_listener _ a); [|log_ext].
    unfold tray_right_click, toggleHighlight.
    destruct isVisible, (isHighlighted a), (submenuShown a) eqn:E; simpl;
      rewrite ?E; log_ext.
  - destruct (has_listener _ a); [|log_ext].
    unfold fileDropped. case_decide; [log_ext|]. destruct shared; log_ext.
  - case_bool_decide; [|log_ext].
    unfold window_close, toggleHighlight.
    destruct (String.eqb _ _), (forceClose a), (isHighlighted a); log_ext.
  - case_bool_decide; log_ext.
  - destruct (menu_handler a i j) as [h|]; [|log_ext].
    unfold click. destruct h; try log_ext.
    destruct (JS.truthyZ keepIt), deleted; log_ext.
Qed.

(** ** Further properties of the runs *)

Lemma wiring_inv_dispatch moment_format env ev a :
  wiring_inv env a → wiring_inv env (dispatch moment_format env ev a).
Proof.
  destruct a as [li tr ph dep hn ih ss fc wl al lg]. unfold wiring_inv. simpl.
  destruct tr as [[hm cm ls]|]; simpl.
  - intros [He H]. destruct li.
    + destruct H as (Hph & -> & -> & -> & -> & -> & -> & -> & Hcm).
      destruct ev; simpl; unfold has_listener; simpl.
      all: try (destruct Hph as [-> | ->]; simpl; by repeat split; auto).
      * destruct Hph as [-> | ->]; simpl; unfold ready_after_menuItems; simpl;
          [destruct fulfilled; [destruct dep|]|]; simpl;
          repeat split; auto; discriminate.
      * unfold window_all_closed. destruct (negb _); simpl; repeat split; auto.
      * unfold fileDropped. case_decide; [|destruct shared]; simpl;
          repeat split; auto.
      * destruct (menu_handler _ i j) as [h|]; [|simpl; by repeat split; auto].
        unfold click. destruct h; simpl; try (by repeat split; auto).
        destruct (JS.truthyZ keepIt), deleted; simpl; repeat split; auto.
    + destruct H as (-> & -> & -> & Hhm & -> & ->). subst hm.
      destruct ev; simpl; unfold has_listener; simpl;
        try (by repeat split; auto).
      * unfold window_all_closed. destruct (negb _); simpl; repeat split; auto.
      * unfold tray_click, toggleHighlight.
        destruct isVisible, isFocused, ih; simpl; repeat split; auto.
      * unfold tray_right_click, toggleHighlight.
        destruct isVisible, ih, ss; simpl; repeat split; auto.
      * case_bool_decide; [|simpl; by repeat split; auto].
        unfold window_close, toggleHighlight.
        destruct (String.eqb _ _), fc, ih; simpl; repeat split; auto.
  - intros (-> & -> & -> & -> & -> & Hph & Hli & Hdep).
    destruct ev; simpl; unfold has_listener, menu_handler; simpl;
      try (by repeat split; auto).
    + destruct ph; simpl; try (by intuition (discriminate || congruence)).
      rewrite Hli, Hdep by auto.
      unfold ready, ready_resolve, loadDeployments_call, check_deployments.
      destruct (negb _), (config env) as [u|];
        try destruct (JS.truthy (token u)); simpl;
        try (by intuition (discriminate || congruence)).
      all: unfold ready_present, wire_onboarding, onboarding;
        destruct (tray_error env) eqn:He; simpl;
        intuition (discriminate || congruence).
    + destruct ph; simpl; try (by intuition (discriminate || congruence)).
      rewrite Hli by auto.
      unfold ready_after_fetch, ready_resolved, loadDeployments_settle,
        check_deployments, ready_present.
      destruct r as [l|]; simpl;
        (destruct (tray_error env) eqn:He; simpl;
         [intuition (discriminate || congruence)|]).
      * unfold wire_loggedIn. simpl.
        destruct (build _ _); simpl; intuition (discriminate || congruence).
      * unfold wire_onboarding, onboarding. simpl.
        intuition (discriminate || congruence).
    + destruct ph; simpl; by intuition (discriminate || congruence).
    + unfold window_all_closed. destruct (negb _); simpl;
        intuition (discriminate || congruence).
Qed.

Lemma wiring_inv_initial env : wiring_inv env initial.
Proof. unfold wiring_inv; simpl. intuition discriminate. Qed.

Lemma wiring_inv_run moment_format env evs :
  wiring_inv env (run moment_format env evs initial).
Proof.
  induction evs as [|ev evs IH] using rev_ind; [apply wiring_inv_initial|].
  rewrite run_snoc. by apply wiring_inv_dispatch.
Qed.

Lemma loggedIn_dispatch moment_format env ev a :
  loggedIn a = true → loggedIn (dispatch moment_format env ev a) = true.
Proof.
  intros Hl. destruct (interactive ev) eqn:Hi.
  { by rewrite (frame_loggedIn _ _ (dispatch_frame moment_format env ev a Hi)). }
  destruct ev; try discriminate; simpl; destruct (phase a) eqn:Hp; try done.
  - unfold ready.
    assert (loggedIn (ready_resolve env a) = true) as Hr.
    { unfold ready_resolve, loadDeployments_call, check_deployments.
      destruct (negb _), (config env) as [u|]; simpl;
        try destruct (JS.truthy (token u)); simpl;
        try destruct (truthyD (deployments a)); simpl; done. }
    destruct (phase (ready_resolve env a)); try done;
      by rewrite ready_present_loggedIn.
  - unfold ready_after_fetch. rewrite ready_present_loggedIn.
    unfold ready_resolved, loadDeployments_settle, check_deployments.
    destruct r; simpl; done.
  - unfold ready_after_menuItems.
    destruct fulfilled; [destruct (deployments a)|]; simpl; done.
Qed.

(** X1. In every run, whenever the icon exists: in the onboarding mode its
    highlight mode is ['always'] exactly when [isHighlighted] is set and
    ['never'] otherwise; in the logged-in mode no highlight mode was ever
    set and [isHighlighted] is unset. *)
Theorem highlight_matches_flag moment_format env evs :
  let a := run moment_format env evs initial in
  ∀ t, tray a = Some t →
    if loggedIn a then highlightMode t = None ∧ isHighlighted a = false
    else highlightMode t = Some (if isHighlighted a then "always" else "never").
Proof.
  simpl. intros t Ht.
  pose proof (wiring_inv_run moment_format env evs) as H.
  unfold wiring_inv in H. rewrite Ht in H. destruct H as [_ H].
  destruct (loggedIn _); intuition.
Qed.


Lemma ready_present_logged_out moment_format env a :
  loggedIn a = false →
  Forall (λ e, logged_in_call e = false) (log a) →
  Forall (λ e, logged_in_call e = false) (log (ready_present moment_format env a)).
Proof.
  intros Hl Hlog. unfold ready_present, wire_onboarding, onboarding.
  destruct (tray_error env); simpl; rewrite ?Hl; simpl;
    rewrite ?Forall_app; repeat split; auto; repeat constructor.
Qed.

Lemma logged_out_log moment_format env evs :
  let a := run moment_format env evs initial in
  loggedIn a = false → Forall (λ e, logged_in_call e = false) (log a).
Proof.
  induction evs as [|ev evs IH] using rev_ind; [by constructor|].
  simpl in *. rewrite run_snoc.
  pose proof (wiring_inv_run moment_format env evs) as Hw.
  set (a := run moment_format env evs initial) in *.
  intros Hl.
  assert (loggedIn a = false) as Hla.
  { destruct (loggedIn a) eqn:E; [|done].
    by rewrite (loggedIn_dispatch moment_format env ev a E) in Hl. }
  specialize (IH Hla).
  destruct (dispatch_emits moment_format env ev a) as (ext & Hlog & Hext).
  assert (has_listener "drop-files" a = false
          ∧ ∀ i j, menu_handler a i j = None) as [Hd Hm].
  { unfold wiring_inv in Hw. unfold has_listener, menu_handler.
    destruct (tray a) as [t|]; [|done]. rewrite Hla in Hw.
    destruct Hw as (_ & _ & Hls & Hcm & _). simpl. by rewrite Hls, Hcm. }
  destruct ev.
  1: { simpl in *. destruct (phase a) eqn:Hp; try done.
       unfold ready in *.
       assert (Forall (λ e, logged_in_call e = false)
                 (log (ready_resolve env a))) as Hr.
       { unfold ready_resolve, loadDeployments_call, check_deployments.
         destruct (negb _), (config env) as [u|]; simpl;
           try destruct (JS.truthy (token u)); simpl;
           try destruct (truthyD (deployments a)); simpl;
           rewrite ?Forall_app; repeat split; auto; repeat constructor. }
       destruct (phase (ready_resolve env a)); try done;
         rewrite ready_present_loggedIn in Hl;
         by apply ready_present_logged_out. }
  1: { simpl in *. destruct (phase a) eqn:Hp; try done.
       unfold ready_after_fetch in *. rewrite ready_present_loggedIn in Hl.
       apply ready_present_logged_out; [done|].
       unfold ready_resolved, loadDeployments_settle, check_deployments.
       destruct r; simpl; rewrite ?Forall_app; repeat split; auto;
         repeat constructor. }
  1: { simpl in *. destruct (phase a) eqn:Hp; try done.
       unfold wiring_inv in Hw.
       destruct (tray a) as [t|] eqn:Ht; [|by intuition].
       rewrite Hla in Hw. destruct Hw as (_ & Hw & _). congruence. }
  4: { simpl. by rewrite Hd. }
  6: { simpl. by rewrite Hm. }
  all: rewrite Hlog; apply Forall_app; split; [done|];
    eapply Forall_impl; [exact Hext|]; intros e; destruct e; simpl; try done.
Qed.

(** X3. In every run that is not logged in, nothing of the logged-in mode
    has happened: no file was shared, no deployment opened, copied or
    deleted, no menu built or set; and a drop on the icon or a click in its
    menu changes nothing. *)
Theorem logged_out_is_inert moment_format env evs :
  let a := run moment_format env evs initial in
  loggedIn a = false →
  count logged_in_call (log a) = 0
  ∧ (∀ files shared,
       dispatch moment_format env (TrayDropFiles files shared) a = a)
  ∧ (∀ i j keepIt deleted,
       dispatch moment_format env (MenuClick i j keepIt deleted) a = a).
Proof.
  simpl. intros Hl.
  split; [by apply count_none, logged_out_log|].
  pose proof (wiring_inv_run moment_format env evs) as Hw.
  unfold wiring_inv in Hw. simpl. unfold has_listener, menu_handler.
  destruct (tray _) as [t|]; [|done]. rewrite Hl in Hw.
  destruct Hw as (_ & _ & Hls & Hcm & _). simpl. by rewrite Hls, Hcm.
Qed.

Lemma count_cons p e l :
  count p (e :: l) = (if p e then 1 else 0) + count p l.
Proof.
  unfold count. destruct (p e) eqn:E.
  - by rewrite filter_cons_True.
  - rewrite filter_cons_False; [done|]. by rewrite E.
Qed.

Lemma count_nil p : count p [] = 0.
Proof. done. Qed.

Lemma count_none_impl (q p : Effect → bool) l :
  Forall (λ e, q e = true) l → (∀ e, q e = true → p e = false) →
  count p l = 0.
Proof.
  intros Hl Hq. apply count_none. eapply Forall_impl; [exact Hl|]. done.
Qed.

Lemma ready_present_counts moment_format env a :
  count is_NewTray (log (ready_present moment_format env a))
  = count is_NewTray (log a) + 1
  ∧ count is_GetDeployments (log (ready_present moment_format env a))
    = count is_GetDeployments (log a)
  ∧ count is_AutoUpdater (log (ready_present moment_format env a))
    = count is_AutoUpdater (log a)
  ∧ mode (ready_present moment_format env a) ≠ Unresolved.
Proof.
  destruct (ready_present_log moment_format env a) as (post & Hl & Hpost & Hp).
  destruct (ready_present_emits moment_format env a) as (ext & Hl' & Hext).
  rewrite Hl' in Hl. apply app_inv_head in Hl. subst ext.
  inversion Hext as [|?? _ Hext']; subst.
  rewrite Hl'. rewrite !count_app, !count_cons. simpl.
  rewrite (count_none_impl presenting is_GetDeployments post),
    (count_none_impl presenting is_AutoUpdater post),
    (count_none_impl (λ e, after_tray e) is_NewTray post); try done.
  - repeat split; try lia. unfold mode.
    destruct Hp as [-> | ->]; by destruct (loggedIn _).
  - intros e. unfold after_tray. by destruct (is_NewTray e).
  - intros e. by destruct e.
  - intros e. by destruct e.
Qed.

Lemma startup_inv_dispatch moment_format env ev a :
  startup_inv env a → startup_inv env (dispatch moment_format env ev a).
Proof.
  intros (Hn & Hg & Hu & Hf).
  destruct (interactive ev) eqn:Hi.
  { destruct (dispatch_frame moment_format env ev a Hi) as [Hp Hl _ _ _ _ _ _ _].
    destruct (dispatch_emits moment_format env ev a) as (ext & Hlog & Hext).
    unfold startup_inv, mode. rewrite Hp, Hl, Hlog, !count_app.
    rewrite (count_none_impl (may_emit ev) is_NewTray ext),
      (count_none_impl (may_emit ev) is_GetDeployments ext),
      (count_none_impl (may_emit ev) is_AutoUpdater ext); try done.
    - rewrite !Nat.add_0_r. done.
    - intros e. destruct ev, e; simpl; try done; args_done.
    - intros e. destruct ev, e; simpl; try done; args_done.
    - intros e. destruct ev, e; simpl; try done; args_done. }
  unfold startup_inv, mode in *.
  destruct ev; try discriminate; simpl; destruct (phase a) eqn:Hp;
    try (rewrite Hp; repeat split; assumption).
  - (* 'ready' *)
    unfold ready.
    assert (match config env with
            | Some u =>
                if JS.truthy (token u) then
                  phase (ready_resolve env a) = AwaitGetDeployments
                  ∧ count is_GetDeployments (log (ready_resolve env a)) = 1
                else
                  phase (ready_resolve env a) = NotReady
                  ∧ count is_GetDeployments (log (ready_resolve env a)) = 0
            | None =>
                phase (ready_resolve env a) = NotReady
                ∧ count is_GetDeployments (log (ready_resolve env a)) = 0
            end
            ∧ count is_NewTray (log (ready_resolve env a)) = 0
            ∧ count is_AutoUpdater (log (ready_resolve env a)) = updates env)
      as (Hc & Hn' & Hu').
    { unfold ready_resolve, loadDeployments_call, check_deployments, updates.
      destruct (platform env =? "linux")%string, (config env) as [u|]; simpl;
        try destruct (JS.truthy (token u)); simpl;
        try destruct (truthyD (deployments a)); simpl;
        rewrite ?Hp, ?count_app, ?count_cons, ?count_nil, ?Hn, ?Hg, ?Hu;
        simpl; done. }
    unfold fetches.
    destruct (config env) as [u|]; [destruct (JS.truthy (token u))|];
      destruct Hc as [Hph Hc]; rewrite Hph.
    + rewrite Hph, Hn', Hc, Hu'. done.
    + destruct (ready_present_counts moment_format env (ready_resolve env a))
        as (-> & -> & -> & Hm).
      rewrite Hn', Hc, Hu'. unfold mode in Hm.
      destruct (phase (ready_present _ _ _)); try done;
        repeat split; try done; by destruct (loggedIn _).
    + destruct (ready_present_counts moment_format env (ready_resolve env a))
        as (-> & -> & -> & Hm).
      rewrite Hn', Hc, Hu'. unfold mode in Hm.
      destruct (phase (ready_present _ _ _)); try done;
        repeat split; try done; by destruct (loggedIn _).
  - (* the fetch has settled *)
    unfold ready_after_fetch.
    destruct (ready_present_counts moment_format env (ready_resolved r a))
      as (-> & -> & -> & Hm).
    assert (count is_NewTray (log (ready_resolved r a)) = 0
            ∧ count is_GetDeployments (log (ready_resolved r a)) = fetches env
            ∧ count is_AutoUpdater (log (ready_resolved r a)) = updates env)
      as (-> & -> & ->).
    { unfold ready_resolved, loadDeployments_settle, check_deployments.
      destruct r; simpl;
        rewrite ?count_app, ?count_cons, ?count_nil, ?Hn, ?Hg, ?Hu; simpl;
        repeat split; lia. }
    unfold mode in Hm.
    destruct (phase (ready_present _ _ _)); try done;
      repeat split; try done; by destruct (loggedIn _).
  - (* menuItems has settled *)
    unfold ready_after_menuItems.
    destruct fulfilled; [destruct (deployments a)|]; simpl;
      rewrite ?count_app, ?count_cons, ?count_nil; simpl;
      rewrite ?Nat.add_0_r; repeat split; done.
Qed.

Lemma startup_inv_run moment_format env evs :
  startup_inv env (run moment_format env evs initial).
Proof.
  induction evs as [|ev evs IH] using rev_ind; [by repeat split|].
  rewrite run_snoc. by apply startup_inv_dispatch.
Qed.

(** X4. In every run [new Tray] is called exactly once when the session
    is resolved, and not at all before. *)
Theorem icon_created_once moment_format env evs :
  let a := run moment_format env evs initial in
  count is_NewTray (log a) = match mode a with Unresolved => 0 | _ => 1 end.
Proof. apply startup_inv_run. Qed.

(** X5. In every run [getDeployments] is called at most once: once when
    ['ready'] has come and the configuration holds a truthy token, never
    otherwise. *)
Theorem fetch_once_with_token moment_format env evs :
  let a := run moment_format env evs initial in
  count is_GetDeployments (log a)
  = match phase a with
    | NotReady => 0
    | _ =>
        match config env with
        | Some u => if JS.truthy (token u) then 1 else 0
        | None => 0
        end
    end.
Proof. apply startup_inv_run. Qed.



(** X8. Once a run has resolved the session, its mode is the same after
    any further events. *)
Theorem mode_terminal moment_format env evs rest :
  mode (run moment_format env evs initial) ≠ Unresolved →
  mode (run moment_format env (evs ++ rest) initial)
  = mode (run moment_format env evs initial).
Proof. intros H. rewrite run_app. by apply mode_run. Qed.

Lemma ready_from_start moment_format env a :
  loggedIn a = false → deployments a = DUndefined → phase a = NotReady →
  loggedIn (ready moment_format env a) = false
  ∧ ((phase (ready moment_format env a) = AwaitGetDeployments
      ∧ ∃ u, config env = Some u ∧ JS.truthy (token u) = true)
     ∨ phase (ready moment_format env a) = AwaitMenuItems
     ∨ phase (ready moment_format env a) = Finished).
Proof.
  intros Hli Hd Hp. unfold ready.
  assert (loggedIn (ready_resolve env a) = false
          ∧ ((phase (ready_resolve env a) = AwaitGetDeployments
              ∧ ∃ u, config env = Some u ∧ JS.truthy (token u) = true)
             ∨ phase (ready_resolve env a) = NotReady)) as [Hl' Hq].
  { unfold ready_resolve, loadDeployments_call, check_deployments.
    destruct (negb _), (config env) as [u|] eqn:Hc; simpl;
      try destruct (JS.truthy (token u)) eqn:Htok; simpl;
      rewrite ?Hd; simpl; (split; [done|]);
      solve [by right | left; eauto]. }
  destruct Hq as [[Hq Hu]|Hq]; rewrite Hq; [by auto|].
  rewrite ready_present_loggedIn. split; [done|].
  destruct (ready_present_log moment_format env (ready_resolve env a))
    as (_ & _ & _ & [E|E]); auto.
Qed.

Lemma login_history moment_format env evs :
  let a := run moment_format env evs initial in
  (phase a = NotReady → loggedIn a = false ∧ deployments a = DUndefined)
  ∧ (phase a = AwaitGetDeployments →
     loggedIn a = false ∧ ∃ u, config env = Some u ∧ JS.truthy (token u) = true)
  ∧ (loggedIn a = true →
     (∃ u, config env = Some u ∧ JS.truthy (token u) = true)
     ∧ ∃ l, GetDeploymentsSettled (Some l) ∈ evs).
Proof.
  induction evs as [|ev evs IH] using rev_ind;
    [simpl; intuition discriminate|].
  simpl in *. rewrite run_snoc.
  set (a := run moment_format env evs initial) in *.
  destruct IH as (Hn & Hw & Hl).
  assert (loggedIn a = true →
          (∃ u, config env = Some u ∧ JS.truthy (token u) = true)
          ∧ ∃ l, GetDeploymentsSettled (Some l) ∈ evs ++ [ev]) as Hl'.
  { intros H. destruct (Hl H) as (? & l & ?). split; [done|].
    exists l. apply elem_of_app. by left. }
  destruct (interactive ev) eqn:Hi.
  { destruct (dispatch_frame moment_format env ev a Hi) as [Hp Hli Hd _ _ _ _ _ _].
    rewrite Hp, Hli, Hd. done. }
  pose proof (conj Hn (conj Hw Hl')) as Hkeep.
  destruct ev; try discriminate; simpl; destruct (phase a) eqn:Hp;
    try (rewrite Hp; exact Hkeep).
  - destruct (Hn eq_refl) as [Hli Hd].
    destruct (ready_from_start moment_format env a Hli Hd Hp) as [Hr Hq].
    rewrite Hr.
    destruct Hq as [[Hq Hu]|[Hq|Hq]]; rewrite Hq;
      repeat split; solve [auto | discriminate].
  - destruct (Hw eq_refl) as (Hli & u & Hc & Htok).
    unfold ready_after_fetch. rewrite ready_present_loggedIn.
    destruct (ready_present_log moment_format env (ready_resolved r a))
      as (_ & _ & _ & Hq).
    assert (loggedIn (ready_resolved r a) = true → ∃ l, r = Some l) as Hr.
    { unfold ready_resolved, loadDeployments_settle, check_deployments.
      destruct r; simpl; rewrite ?Hli; eauto. done. }
    split; [intros E; rewrite E in Hq; by destruct Hq|].
    split; [intros E; rewrite E in Hq; by destruct Hq|].
    intros H. split; [eauto|].
    destruct (Hr H) as (l & ->). exists l.
    apply elem_of_app. right. by apply list_elem_of_singleton.
  - unfold ready_after_menuItems.
    destruct fulfilled; [destruct (deployments a)|]; simpl;
      (split; [discriminate|]; split; [discriminate|]); exact Hl'.
Qed.

(** X9. A run is logged in only if the configuration holds a truthy
    token and a fetch of the deployments has fulfilled. *)
Theorem logged_in_only_after_fetch moment_format env evs :
  loggedIn (run moment_format env evs initial) = true →
  (∃ u, config env = Some u ∧ JS.truthy (token u) = true)
  ∧ ∃ l, GetDeploymentsSettled (Some l) ∈ evs.
Proof. apply login_history. Qed.

Lemma events_snoc p evs ev :
  events p (evs ++ [ev]) = events p evs + (if p ev then 1 else 0).
Proof.
  unfold events. rewrite filter_app, length_app. f_equal.
  destruct (p ev) eqn:E.
  - by rewrite filter_cons_True.
  - rewrite filter_cons_False; [done|]. by rewrite E.
Qed.

Ltac if_lia :=
  simpl; rewrite ?count_cons, ?count_nil; simpl;
  repeat match goal with
         | |- context [if ?b then _ else _] => destruct b
         end;
  lia.

Lemma dispatch_user_calls moment_format env ev a :
  ∃ ext,
    log (dispatch moment_format env ev a) = log a ++ ext
    ∧ count is_DeleteDeployment ext ≤ (if confirmed_click ev then 1 else 0)
    ∧ count is_Share ext ≤ (if single_drop ev then 1 else 0).
Proof.
  destruct (dispatch_emits moment_format env ev a) as (ext & Hlog & Hext).
  destruct ev.
  7: { simpl. destruct (has_listener _ a);
         [|exists []; rewrite app_nil_r; repeat split; if_lia].
       unfold fileDropped. case_decide.
       - eexists. split; [reflexivity|]. split; if_lia.
       - rewrite bool_decide_eq_true_2 by lia.
         destruct shared; simpl; (eexists; split;
           [rewrite <- ?app_assoc; reflexivity|]); split; if_lia. }
  9: { simpl. destruct (menu_handler a i j) as [h|];
         [|exists []; rewrite app_nil_r; repeat split; if_lia].
       unfold click, JS.truthyZ. destruct h;
         try (eexists; split; [simpl; rewrite <- ?app_assoc; reflexivity|];
              split; if_lia).
       destruct (keepIt =? 0)%Z, deleted; simpl;
         (eexists; split; [rewrite <- ?app_assoc; reflexivity|]);
         split; if_lia. }
  all: exists ext; split; [done|];
    rewrite (count_none_impl _ is_DeleteDeployment ext Hext)
      by (intros e; destruct e; simpl; done);
    rewrite (count_none_impl _ is_Share ext Hext)
      by (intros e; destruct e; simpl; done);
    simpl; lia.
Qed.

(** X10. In every run [deleteDeployment] is called at most as often as
    the menu was clicked with the dialog answering index 0, and [share] at
    most as often as at most one file was dropped. *)
Theorem calls_answer_user_events moment_format env evs :
  let a := run moment_format env evs initial in
  count is_DeleteDeployment (log a) ≤ events confirmed_click evs
  ∧ count is_Share (log a) ≤ events single_drop evs.
Proof.
  induction evs as [|ev evs IH] using rev_ind; [simpl; split; done|].
  simpl in *. rewrite run_snoc, !events_snoc.
  destruct (dispatch_user_calls moment_format env ev
              (run moment_format env evs initial)) as (ext & -> & Hd & Hs).
  rewrite !count_app. lia.
Qed.

Lemma ready_present_failure moment_format env err a :
  tray_error env = Some err →
  ready_present moment_format env a
  = set_phase Finished
      (emit (ShowError err) (emit (NewTray "/icons/iconTemplate.png") a)).
Proof. intros H. unfold ready_present. by rewrite H. Qed.

Lemma app_same_nil {A} (l ext : list A) : l = l ++ ext → ext = [].
Proof. intros H. apply (app_inv_head l). by rewrite app_nil_r, <- H. Qed.

Lemma icon_failure_inv moment_format env err evs :
  tray_error env = Some err →
  let a := run moment_format env evs initial in
  tray a = None
  ∧ count is_ShowError (log a) = match mode a with Unresolved => 0 | _ => 1 end
  ∧ (mode a ≠ Unresolved → ShowError err ∈ log a).
Proof.
  intros He. simpl.
  assert (∀ evs, tray (run moment_format env evs initial) = None) as Ht.
  { intros evs'. pose proof (wiring_inv_run moment_format env evs') as H.
    unfold wiring_inv in H. destruct (tray _); [|done].
    destruct H as [H _]. congruence. }
  split; [apply Ht|].
  induction evs as [|ev evs IH] using rev_ind; [by split|].
  rewrite run_snoc. specialize (Ht evs).
  set (a := run moment_format env evs initial) in *.
  destruct IH as [Hc Hin].
  destruct (interactive ev) eqn:Hi.
  { destruct (dispatch_frame moment_format env ev a Hi) as [Hp Hl _ _ _ _ _ _ _].
    destruct (dispatch_emits moment_format env ev a) as (ext & Hlog & Hext).
    unfold mode in *. rewrite Hp, Hl, Hlog, count_app.
    assert (count is_ShowError ext = 0) as ->.
    { destruct ev; try discriminate.
      4: { simpl in Hlog. unfold has_listener in Hlog. rewrite Ht in Hlog.
           by rewrite (app_same_nil _ _ Hlog). }
      6: { simpl in Hlog. unfold menu_handler in Hlog. rewrite Ht in Hlog.
           by rewrite (app_same_nil _ _ Hlog). }
      all: apply (count_none_impl _ is_ShowError ext Hext);
        intros e; destruct e; simpl; done. }
    split; [lia|]. intros H. apply elem_of_app. left. by apply Hin. }
  unfold mode in *.
  pose proof (conj Hc Hin) as Hkeep.
  destruct ev; try discriminate; simpl; destruct (phase a) eqn:Hp;
    try (rewrite Hp; exact Hkeep).
  - unfold ready.
    assert (count is_ShowError (log (ready_resolve env a)) = 0
            ∧ (phase (ready_resolve env a) = AwaitGetDeployments
               ∨ phase (ready_resolve env a) = NotReady)) as [Hr Hq].
    { unfold ready_resolve, loadDeployments_call, check_deployments.
      destruct (negb _), (config env) as [u|]; simpl;
        try destruct (JS.truthy (token u)); simpl;
        try destruct (truthyD (deployments a)); simpl;
        rewrite ?count_app, ?count_cons, ?count_nil, ?Hc, ?Hp; simpl; auto. }
    destruct Hq as [Hq|Hq]; rewrite Hq; [by rewrite Hq, Hr|].
    rewrite (ready_present_failure _ _ err) by done. simpl.
    rewrite !count_app, Hr, !count_cons, count_nil. simpl.
    split; [by destruct (loggedIn _)|]. intros _.
    apply elem_of_app. right. by apply list_elem_of_singleton.
  - unfold ready_after_fetch.
    rewrite (ready_present_failure _ _ err) by done. simpl.
    assert (count is_ShowError (log (ready_resolved r a)) = 0) as Hr.
    { unfold ready_resolved, loadDeployments_settle, check_deployments.
      destruct r; simpl;
        rewrite ?count_app, ?count_cons, ?count_nil, ?Hc; simpl; lia. }
    rewrite !count_app, Hr, !count_cons, count_nil. simpl.
    split; [by destruct (loggedIn _)|]. intros _.
    apply elem_of_app. right. by apply list_elem_of_singleton.
  - pose proof (wiring_inv_run moment_format env evs) as H.
    fold a in H. unfold wiring_inv in H. rewrite Ht in H.
    destruct H as (_ & _ & _ & _ & _ & H & _). done.
Qed.

(** X11. When [new Tray] throws, no run ever has an icon: once the
    session is resolved the error has been shown, exactly once, and every
    click, drop or menu click changes nothing. *)
Theorem icon_creation_failure moment_format env err evs :
  tray_error env = Some err →
  let a := run moment_format env evs initial in
  tray a = None
  ∧ count is_ShowError (log a) = match mode a with Unresolved => 0 | _ => 1 end
  ∧ (mode a ≠ Unresolved → ShowError err ∈ log a)
  ∧ (∀ ev, on_icon ev = true → dispatch moment_format env ev a = a).
Proof.
  intros He. simpl.
  destruct (icon_failure_inv moment_format env err evs He) as (Ht & Hc & Hin).
  repeat split; try done.
  intros ev Hev. destruct ev; try discriminate; simpl;
    unfold has_listener, menu_handler; by rewrite Ht.
Qed.

Lemma for_of_shape moment_format fuel i h :
  length (array h) - i < fuel →
  ∃ h',
    for_of moment_format fuel i h = Some h'
    ∧ length (array h') = length (array h)
    ∧ next h' = next h + (length (array h) - i).
Proof.
  revert i h. induction fuel as [|fuel IH]; intros i h Hlt; [lia|].
  simpl. destruct (array h !! i) as [c|] eqn:Hi.
  - apply lookup_lt_Some in Hi.
    destruct (IH (S i) (loop_body moment_format c h)) as (h' & Hf & Hl & Hn).
    { rewrite loop_body_length. lia. }
    exists h'. rewrite loop_body_length in Hl, Hn. simpl in Hn.
    repeat split; try done; lia.
  - apply lookup_ge_None_1 in Hi. exists h. repeat split; try done; lia.
Qed.

(** X12. On any array, whatever it holds, the loop ends, keeps the length
    of the array, and makes one new object per slot. *)
Theorem build_keeps_length moment_format h :
  ∃ h',
    build moment_format h = Some h'
    ∧ length (array h') = length (array h)
    ∧ next h' = next h + length (array h).
Proof.
  destruct (for_of_shape moment_format (S (length (array h))) 0 h)
    as (h' & Hf & Hl & Hn); [lia|].
  exists h'. repeat split; try done; lia.
Qed.




Lemma fetch_ok_state moment_format env a l :
  blank a → tray_error env = None →
  let a3 := ready_after_fetch moment_format env (Some l) a in
  phase a3 = AwaitMenuItems
  ∧ loggedIn a3 = true
  ∧ deployments a3 = DArray (entries moment_format (length l) (alloc 0 l))
  ∧ contextMenu <$> tray a3 = Some None
  ∧ listeners <$> tray a3 = Some ["drop-files"].
Proof.
  intros [Ht Hl Hd Hn Hw Ha Hlog] He. simpl.
  unfold ready_after_fetch, ready_resolved, loadDeployments_settle,
    check_deployments, ready_present, wire_loggedIn. simpl.
  rewrite He. simpl.
  rewrite build_entries by (rewrite Hn; apply (alloc_lt 0)). simpl.
  by rewrite Hn.
Qed.

Lemma menu_handler_frame a a' i j :
  frame a a' → menu_handler a' i j = menu_handler a i j.
Proof.
  intros [_ _ _ _ Hm _ _ _ _]. unfold menu_handler.
  destruct (tray a) as [t|], (tray a') as [t'|]; simpl in *; try done.
  by injection Hm as ->.
Qed.

Lemma menu_handler_entries moment_format a n m l i j :
  contextMenu <$> tray a = Some (Some (entries moment_format n (alloc m l))) →
  menu_handler a i j
  = match l !! i with
    | Some d =>
        match children moment_format d !! j with
        | Some (Action _ h) => Some h
        | _ => None
        end
    | None => None
    end.
Proof.
  intros Hm. unfold menu_handler.
  destruct (tray a) as [t|]; [|done]. simpl in *. injection Hm as ->. simpl.
  destruct (l !! i) as [d|] eqn:Hi.
  - assert (alloc m l !! i = Some (m + i, Dep d)) as Ha.
    { clear -Hi. revert m i Hi. induction l as [|x l IH]; intros m i Hi; [done|].
      destruct i as [|i]; simpl in *.
      - inversion Hi; subst. by rewrite Nat.add_0_r.
      - rewrite Nat.add_succ_r. by apply (IH (S m)). }
    rewrite (entries_lookup _ _ _ _ _ Ha). done.
  - rewrite lookup_ge_None_2; [done|].
    rewrite entries_length, alloc_length. by apply lookup_ge_None_1.
Qed.

(** The logged-in startup, up to the moment [menuItems] settles. *)
Lemma run_to_menuItems moment_format env u l before pending pending' :
  config env = Some u → JS.truthy (token u) = true → tray_error env = None →
  Forall (λ ev, interactive ev = true) before →
  Forall (λ ev, interactive ev = true) pending →
  Forall (λ ev, interactive ev = true) pending' →
  let a :=
    run moment_format env
      (before ++ Ready :: pending ++ GetDeploymentsSettled (Some l) :: pending')
      initial in
  phase a = AwaitMenuItems
  ∧ loggedIn a = true
  ∧ deployments a = DArray (entries moment_format (length l) (alloc 0 l))
  ∧ contextMenu <$> tray a = Some None
  ∧ listeners <$> tray a = Some ["drop-files"].
Proof.
  intros Hc Htok He Hb Hpend Hpend'. simpl.
  destruct (run_to_fetch moment_format env u before pending Hc Htok Hb Hpend)
    as [Hblank Hp].
  replace (before ++ Ready :: pending ++ GetDeploymentsSettled (Some l) :: pending')
    with ((before ++ Ready :: pending)
            ++ GetDeploymentsSettled (Some l) :: pending')
    by (by rewrite <- app_assoc).
  rewrite run_app, run_cons. simpl. rewrite Hp.
  destruct (fetch_ok_state moment_format env _ l Hblank He)
    as (H1 & H2 & H3 & H4 & H5).
  destruct (run_interactive moment_format env pending'
              (ready_after_fetch moment_format env (Some l)
                 (run moment_format env (before ++ Ready :: pending) initial))
              Hpend') as [F1 F2 F3 _ F5 F6 _ _ _].
  by rewrite F1, F2, F3, F5, F6.
Qed.

Lemma run_to_menu moment_format env u l before pending pending' rest :
  config env = Some u → JS.truthy (token u) = true → tray_error env = None →
  Forall (λ ev, interactive ev = true) before →
  Forall (λ ev, interactive ev = true) pending →
  Forall (λ ev, interactive ev = true) pending' →
  let a :=
    run moment_format env
      (before ++ Ready :: pending ++ GetDeploymentsSettled (Some l)
         :: pending' ++ MenuItemsSettled true :: rest) initial in
  phase a = Finished
  ∧ contextMenu <$> tray a
    = Some (Some (entries moment_format (length l) (alloc 0 l))).
Proof.
  intros Hc Htok He Hb Hpend Hpend'. simpl.
  destruct (run_to_menuItems moment_format env u l before pending pending'
              Hc Htok He Hb Hpend Hpend') as (H1 & H2 & H3 & H4 & H5).
  replace (before ++ Ready :: pending ++ GetDeploymentsSettled (Some l)
             :: pending' ++ MenuItemsSettled true :: rest)
    with ((before ++ Ready :: pending ++ GetDeploymentsSettled (Some l)
             :: pending') ++ MenuItemsSettled true :: rest)
    by (rewrite <- !app_assoc; simpl; by rewrite <- !app_assoc).
  rewrite run_app, run_cons.
  set (a := run moment_format env _ initial) in *.
  assert (phase (dispatch moment_format env (MenuItemsSettled true) a) = Finished
          ∧ contextMenu <$> tray (dispatch moment_format env
                                    (MenuItemsSettled true) a)
            = Some (Some (entries moment_format (length l) (alloc 0 l))))
    as [Hp Hm].
  { simpl. rewrite H1. unfold ready_after_menuItems. rewrite H3. simpl.
    destruct (tray a); by simpl in *. }
  destruct (run_finished moment_format env rest _ Hp) as [F1 _ _ _ F5 _ _ _ _].
  by rewrite F1, F5.
Qed.

(** X14. After a logged-in startup whose [menuItems] fulfilled, and any
    events since: in the submenu of the deployment at index [i] of the
    fetched list, the first item opens "https://" and its url, the second
    writes that address to the clipboard and notifies, the fourth is the
    Delete handler of its name and uid; the separators, the date label and
    anything past them, or past the last deployment, do nothing. *)
Theorem menu_click_acts_on_its_deployment moment_format env u l before pending
    pending' rest i d keepIt deleted :
  config env = Some u → JS.truthy (token u) = true → tray_error env = None →
  Forall (λ ev, interactive ev = true) before →
  Forall (λ ev, interactive ev = true) pending →
  Forall (λ ev, interactive ev = true) pending' →
  l !! i = Some d →
  let a :=
    run moment_format env
      (before ++ Ready :: pending ++ GetDeploymentsSettled (Some l)
         :: pending' ++ MenuItemsSettled true :: rest) initial in
  effects_since a (dispatch moment_format env (MenuClick i 0 keepIt deleted) a)
  = [OpenExternal ("https://" +:+ url d)]
  ∧ effects_since a
      (dispatch moment_format env (MenuClick i 1 keepIt deleted) a)
    = [ClipboardWriteText ("https://" +:+ url d);
       Notify "Copied to clipboard"
         "Your clipboard now contains the URL of your deployment."]
  ∧ menu_handler a i 3 = Some (DeleteClick (JS.str (name d)) (JS.str (uid d)))
  ∧ (∀ j, j = 2 ∨ j = 4 ∨ 5 ≤ j →
       dispatch moment_format env (MenuClick i j keepIt deleted) a = a)
  ∧ (∀ i' j, length l ≤ i' →
       dispatch moment_format env (MenuClick i' j keepIt deleted) a = a).
Proof.
  intros Hc Htok He Hb Hpend Hpend' Hi. simpl.
  destruct (run_to_menu moment_format env u l before pending pending' rest
              Hc Htok He Hb Hpend Hpend') as [_ Hm].
  set (a := run moment_format env _ initial) in *.
  pose proof (λ i j, menu_handler_entries moment_format a (length l) 0 l i j Hm)
    as Hh.
  repeat split.
  - simpl. rewrite (Hh i 0), Hi. simpl. by apply effects_since_app.
  - simpl. rewrite (Hh i 1), Hi. simpl.
    apply effects_since_app. simpl. by rewrite <- app_assoc.
  - by rewrite (Hh i 3), Hi.
  - intros j Hj. simpl. rewrite (Hh i j), Hi.
    destruct Hj as [-> | [-> | Hj]]; [done|done|].
    do 5 (destruct j as [|j]; [lia|]). destruct j; done.
  - intros i' j Hi'. simpl. rewrite (Hh i' j).
    by rewrite (lookup_ge_None_2 l i' Hi').
Qed.

(** X15. After a logged-in startup whose [menuItems] rejected, and any
    events since: the mode is logged-in, the icon has no context menu, menu
    clicks do nothing, and a dropped file is still shared. *)
Theorem menuItems_rejected_no_menu moment_format env u l before pending
    pending' rest :
  config env = Some u → JS.truthy (token u) = true → tray_error env = None →
  Forall (λ ev, interactive ev = true) before →
  Forall (λ ev, interactive ev = true) pending →
  Forall (λ ev, interactive ev = true) pending' →
  let a :=
    run moment_format env
      (before ++ Ready :: pending ++ GetDeploymentsSettled (Some l)
         :: pending' ++ MenuItemsSettled false :: rest) initial in
  mode a = LoggedIn
  ∧ contextMenu <$> tray a = Some None
  ∧ (∀ i j keepIt deleted,
       dispatch moment_format env (MenuClick i j keepIt deleted) a = a)
  ∧ (∀ f,
       effects_since a (dispatch moment_format env (TrayDropFiles [f] true) a)
       = [Share (JS.str f); PreventDefault]).
Proof.
  intros Hc Htok He Hb Hpend Hpend'. simpl.
  destruct (run_to_menuItems moment_format env u l before pending pending'
              Hc Htok He Hb Hpend Hpend') as (H1 & H2 & H3 & H4 & H5).
  replace (before ++ Ready :: pending ++ GetDeploymentsSettled (Some l)
             :: pending' ++ MenuItemsSettled false :: rest)
    with ((before ++ Ready :: pending ++ GetDeploymentsSettled (Some l)
             :: pending') ++ MenuItemsSettled false :: rest)
    by (rewrite <- !app_assoc; simpl; by rewrite <- !app_assoc).
  rewrite run_app, run_cons.
  set (a := run moment_format env _ initial) in *.
  set (b := dispatch moment_format env (MenuItemsSettled false) a).
  assert (phase b = Finished ∧ loggedIn b = true
          ∧ contextMenu <$> tray b = Some None
          ∧ listeners <$> tray b = Some ["drop-files"]) as (Hp & Hl & Hm & Hls).
  { unfold b. simpl. rewrite H1. by unfold ready_after_menuItems. }
  destruct (run_finished moment_format env rest b Hp)
    as [F1 F2 _ _ F5 F6 _ _ _].
  set (c := run moment_format env rest b) in *.
  rewrite Hm in F5. rewrite Hls in F6.
  split; [unfold mode; by rewrite F1, F2, Hp, Hl|]. split; [done|].
  destruct (tray c) as [t|] eqn:Ht; [|done]. simpl in F5, F6.
  injection F5 as F5. injection F6 as F6.
  split.
  - intros i j keepIt deleted. simpl. unfold menu_handler. rewrite Ht. simpl.
    by rewrite F5.
  - intros f. simpl. unfold has_listener. rewrite Ht, F6. simpl.
    apply effects_since_app. unfold fileDropped. simpl.
    by rewrite <- app_assoc.
Qed.

(** X16. Once the ['ready'] handler has returned, an item of the menu
    stays what it is through any events, the deletion of its deployment
    included. *)
Theorem menu_entry_stays moment_format env a i j h evs :
  phase a = Finished → menu_handler a i j = Some h →
  menu_handler (run moment_format env evs a) i j = Some h.
Proof.
  intros Hp Hh. rewrite (menu_handler_frame a); [done|].
  by apply run_finished.
Qed.

Lemma onboarding_step moment_format env ev a :
  wiring_inv env a → is_Some (tray a) → loggedIn a = false →
  submenuShown (dispatch moment_format env ev a)
  = (if is_right_click ev then negb (submenuShown a) else submenuShown a)
  ∧ forceClose (dispatch moment_format env ev a)
    = (if is_before_quit ev then true else forceClose a)
  ∧ is_Some (tray (dispatch moment_format env ev a))
  ∧ loggedIn (dispatch moment_format env ev a) = false.
Proof.
  destruct a as [li tr ph dep hn ih ss fc wl al lg]. unfold wiring_inv. simpl.
  intros Hw [t Ht] ->. subst tr.
  destruct t as [hm cm ls]. simpl in Hw.
  destruct Hw as (_ & -> & -> & -> & -> & -> & ->).
  destruct ev; simpl; unfold has_listener; simpl;
    try (repeat split; solve [reflexivity | eexists; reflexivity]).
  - unfold window_all_closed. destruct (negb _); simpl;
      repeat split; solve [reflexivity | eexists; reflexivity].
  - unfold tray_click, toggleHighlight.
    destruct isVisible, isFocused, ih; simpl;
      repeat split; solve [reflexivity | eexists; reflexivity].
  - unfold tray_right_click, toggleHighlight.
    destruct isVisible, ih, ss; simpl;
      repeat split; solve [reflexivity | eexists; reflexivity].
  - case_bool_decide;
      [|simpl; repeat split; solve [reflexivity | eexists; reflexivity]].
    unfold window_close, toggleHighlight.
    destruct (String.eqb _ _), fc, ih; simpl;
      repeat split; solve [reflexivity | eexists; reflexivity].
Qed.

Lemma onboarding_run moment_format env evs0 evs :
  let a0 := run moment_format env evs0 initial in
  let a := run moment_format env evs a0 in
  is_Some (tray a0) → loggedIn a0 = false →
  submenuShown a
  = xorb (Nat.odd (events is_right_click evs)) (submenuShown a0)
  ∧ forceClose a
    = forceClose a0 || negb (events is_before_quit evs =? 0)
  ∧ is_Some (tray a) ∧ loggedIn a = false.
Proof.
  simpl. intros Ht Hl.
  induction evs as [|ev evs IH] using rev_ind.
  { simpl. by rewrite orb_false_r. }
  destruct IH as (Hs & Hf & Ht' & Hl').
  rewrite run_snoc, !events_snoc.
  pose proof (wiring_inv_run moment_format env (evs0 ++ evs)) as Hw.
  rewrite run_app in Hw.
  destruct (onboarding_step moment_format env ev _ Hw Ht' Hl')
    as (-> & -> & ? & ?).
  rewrite Hs, Hf. repeat split; try done.
  - destruct (is_right_click ev); simpl.
    + rewrite Nat.add_1_r, Nat.odd_succ, <- Nat.negb_odd.
      generalize (Nat.odd (events is_right_click evs)),
        (submenuShown (run moment_format env evs0 initial)).
      by intros [] [].
    + by rewrite Nat.add_0_r.
  - destruct (is_before_quit ev); simpl.
    + rewrite Nat.add_1_r. simpl. by rewrite orb_true_r.
    + by rewrite Nat.add_0_r.
Qed.

(** X17. In the onboarding mode [submenuShown] is flipped by every
    right-click and by nothing else, so after any events it has been
    flipped as often as there were right-clicks; the next right-click pops
    up the quit menu when it is unset and [null] when it is set. *)
Theorem right_click_alternates moment_format env evs0 evs isVisible :
  let a0 := run moment_format env evs0 initial in
  let a := run moment_format env evs a0 in
  is_Some (tray a0) → loggedIn a0 = false →
  submenuShown a
  = xorb (Nat.odd (events is_right_click evs)) (submenuShown a0)
  ∧ PopUpContextMenu
      (if submenuShown a then None
       else Some (if String.eqb (platform env) "darwin" then "Quit Now"
                  else "Quit"))
    ∈ effects_since a (dispatch moment_format env (TrayRightClick isVisible) a).
Proof.
  simpl. intros Ht Hl.
  destruct (onboarding_run moment_format env evs0 evs Ht Hl)
    as (Hs & _ & [t Ht'] & Hl').
  split; [done|].
  pose proof (wiring_inv_run moment_format env (evs0 ++ evs)) as Hw.
  rewrite run_app in Hw.
  set (a := run moment_format env evs _) in *.
  unfold wiring_inv in Hw. rewrite Ht', Hl' in Hw.
  destruct Hw as (_ & _ & Hls & _).
  simpl. unfold has_listener. rewrite Ht', Hls. simpl.
  unfold tray_right_click, toggleHighlight.
  destruct isVisible; simpl;
    (erewrite effects_since_app; [|simpl; by rewrite <- ?app_assoc]);
    set_solver.
Qed.

(** X18. In the onboarding mode [forceClose] is set by ['before-quit']
    and by nothing else.  While it is unset, a ['close'] of the window
    toggles the highlight, hides the window and prevents the default; once
    it is set, the handler does nothing and the window closes. *)
Theorem close_hides_until_quit moment_format env evs0 evs :
  let a0 := run moment_format env evs0 initial in
  let a := run moment_format env evs a0 in
  is_Some (tray a0) → loggedIn a0 = false →
  forceClose a = forceClose a0 || negb (events is_before_quit evs =? 0)
  ∧ effects_since a (dispatch moment_format env (WindowEvent "close") a)
    = if forceClose a then []
      else [SetHighlightMode (if isHighlighted a then "never" else "always");
            WindowHide; PreventDefault].
Proof.
  simpl. intros Ht Hl.
  destruct (onboarding_run moment_format env evs0 evs Ht Hl)
    as (_ & Hf & [t Ht'] & Hl').
  split; [done|].
  pose proof (wiring_inv_run moment_format env (evs0 ++ evs)) as Hw.
  rewrite run_app in Hw.
  set (a := run moment_format env evs _) in *.
  unfold wiring_inv in Hw. rewrite Ht', Hl' in Hw.
  destruct Hw as (_ & _ & _ & _ & _ & Hwl & _).
  simpl. rewrite Hwl. simpl.
  unfold window_close, toggleHighlight.
  destruct (forceClose a); [by apply effects_since_app; rewrite app_nil_r|].
  destruct (isHighlighted a); simpl;
    apply effects_since_app; simpl; by rewrite <- ?app_assoc.
Qed.

(** ** The further properties at the scenarios *)

Lemma highlight_matches_flag_witness :
  let a := run pattern_only scenario_A [Ready; TrayClick false false] initial in
  let t := {| highlightMode := Some "always"; contextMenu := None;
              listeners := ["click"; "right-click"] |} in
  tray a = Some t
  ∧ if loggedIn a then highlightMode t = None ∧ isHighlighted a = false
    else highlightMode t = Some (if isHighlighted a then "always" else "never").
Proof.
  simpl.
  assert (tray (run pattern_only scenario_A [Ready; TrayClick false false]
                  initial)
          = Some {| highlightMode := Some "always"; contextMenu := None;
                    listeners := ["click"; "right-click"] |}) as Ht
    by reflexivity.
  split; [exact Ht|].
  exact (highlight_matches_flag pattern_only scenario_A
           [Ready; TrayClick false false] _ Ht).
Defined.

Lemma logged_out_is_inert_witness :
  loggedIn scenario_A_wired = false
  ∧ count logged_in_call (log scenario_A_wired) = 0.
Proof.
  split; [reflexivity|].
  exact (proj1 (logged_out_is_inert pattern_only scenario_A [Ready] eq_refl)).
Defined.

Lemma mode_terminal_witness :
  mode (run pattern_only scenario_A [Ready] initial) ≠ Unresolved
  ∧ mode (run pattern_only scenario_A ([Ready] ++ [TrayClick false false])
            initial)
    = mode (run pattern_only scenario_A [Ready] initial).
Proof.
  assert (mode (run pattern_only scenario_A [Ready] initial) ≠ Unresolved) as H
    by (vm_compute; discriminate).
  split; [exact H|].
  exact (mode_terminal pattern_only scenario_A [Ready] [TrayClick false false] H).
Defined.

Lemma logged_in_only_after_fetch_witness :
  loggedIn (run pattern_only scenario_B
              [Ready; GetDeploymentsSettled (Some [proj])] initial) = true
  ∧ ∃ l, GetDeploymentsSettled (Some l)
         ∈ [Ready; GetDeploymentsSettled (Some [proj])].
Proof.
  split; [reflexivity|].
  exact (proj2 (logged_in_only_after_fetch pattern_only scenario_B
                  [Ready; GetDeploymentsSettled (Some [proj])] eq_refl)).
Defined.

Lemma icon_creation_failure_witness :
  tray_error scenario_no_icon = Some "Failed to load image"
  ∧ tray (run pattern_only scenario_no_icon [Ready; TrayClick false false]
            initial) = None.
Proof.
  split; [reflexivity|].
  exact (proj1 (icon_creation_failure pattern_only scenario_no_icon _
                  [Ready; TrayClick false false] eq_refl)).
Defined.


Lemma menu_click_acts_on_its_deployment_witness :
  config scenario_B = Some {| token := JS.str "token";
                              email := JS.str "me@example.com" |}
  ∧ JS.truthy (JS.str "token") = true
  ∧ tray_error scenario_B = None
  ∧ [proj] !! 0 = Some proj
  ∧ effects_since scenario_B_menu
      (dispatch pattern_only scenario_B (MenuClick 0 0 0 true) scenario_B_menu)
    = [OpenExternal "https://proj.example.com"].
Proof.
  assert (Forall (λ ev, interactive ev = true) []) as H0 by constructor.
  split; [reflexivity|]. split; [reflexivity|]. split; [reflexivity|].
  split; [reflexivity|].
  exact (proj1 (menu_click_acts_on_its_deployment pattern_only scenario_B _
                  [proj] [] [] [] [] 0 proj 0 true
                  eq_refl eq_refl eq_refl H0 H0 H0 eq_refl)).
Defined.

Lemma menuItems_rejected_no_menu_witness :
  config scenario_B = Some {| token := JS.str "token";
                              email := JS.str "me@example.com" |}
  ∧ JS.truthy (JS.str "token") = true
  ∧ tray_error scenario_B = None
  ∧ mode (run pattern_only scenario_B
            [Ready; GetDeploymentsSettled (Some [proj]);
             MenuItemsSettled false] initial) = LoggedIn.
Proof.
  assert (Forall (λ ev, interactive ev = true) []) as H0 by constructor.
  split; [reflexivity|]. split; [reflexivity|]. split; [reflexivity|].
  exact (proj1 (menuItems_rejected_no_menu pattern_only scenario_B _
                  [proj] [] [] [] [] eq_refl eq_refl eq_refl H0 H0 H0)).
Defined.

Lemma menu_entry_stays_witness :
  phase scenario_B_menu = Finished
  ∧ menu_handler scenario_B_menu 0 3
    = Some (DeleteClick (JS.str "proj") (JS.str "1"))
  ∧ menu_handler
      (run pattern_only scenario_B [MenuClick 0 3 0 true] scenario_B_menu) 0 3
    = Some (DeleteClick (JS.str "proj") (JS.str "1")).
Proof.
  split; [reflexivity|]. split; [reflexivity|].
  exact (menu_entry_stays pattern_only scenario_B scenario_B_menu 0 3 _
           [MenuClick 0 3 0 true] eq_refl eq_refl).
Defined.

Lemma right_click_alternates_witness :
  is_Some (tray scenario_A_wired)
  ∧ loggedIn scenario_A_wired = false
  ∧ submenuShown
      (run pattern_only scenario_A
         [TrayRightClick false; TrayClick false false; TrayRightClick true]
         scenario_A_wired)
    = xorb (Nat.odd
              (events is_right_click
                 [TrayRightClick false; TrayClick false false;
                  TrayRightClick true]))
        (submenuShown scenario_A_wired).
Proof.
  assert (is_Some (tray scenario_A_wired)) as Ht by (eexists; reflexivity).
  split; [exact Ht|]. split; [reflexivity|].
  exact (proj1 (right_click_alternates pattern_only scenario_A [Ready]
                  [TrayRightClick false; TrayClick false false;
                   TrayRightClick true] false Ht eq_refl)).
Defined.

Lemma close_hides_until_quit_witness :
  is_Some (tray scenario_A_wired)
  ∧ loggedIn scenario_A_wired = false
  ∧ forceClose (run pattern_only scenario_A [BeforeQuit] scenario_A_wired)
    = forceClose scenario_A_wired
      || negb (events is_before_quit [BeforeQuit] =? 0).
Proof.
  assert (is_Some (tray scenario_A_wired)) as Ht by (eexists; reflexivity).
  split; [exact Ht|]. split; [reflexivity|].
  exact (proj1 (close_hides_until_quit pattern_only scenario_A [Ready]
                  [BeforeQuit] Ht eq_refl)).
Defined.
